(** * ClaClo-teacher: the classroom backend of [app.py], embedded in Rocq

    The Flask application of [src/app.py] is a set of request handlers over
    five SQLAlchemy tables.  This development embeds each handler as a
    function from the store and the request to either a new store with a
    response or a raised Python exception, and proves the properties the
    specification states about them.

    Modelling choices, all of them about what lies outside [app.py]:

    - a JSON value is [pyval]: [None], an integer, a string, a list or a
      dict (an association list read front to back).  Floats and booleans
      are left out;
    - [request.json] is a [pyval]; a request whose body Flask itself
      refuses before or while reading it is not a request of the model;
    - [@jwt_required()] sees the verified identity of the bearer token, or
      none when the request carries no Authorization header;
    - a table is the list of its rows in insertion order, [first()] is the
      first row of that order, and a new primary key is one more than the
      largest key of the table (SQLite's integer primary key);
    - foreign keys and the length bound of [String(n)] are declared but not
      enforced (SQLite's defaults); an [Integer] column holds a signed
      64-bit integer, and a larger one is refused with [OverflowError] when
      it is written;
    - a value whose Python type does not fit its column ([DataError]) is
      refused when it reaches the database.  What a driver really does with
      such a value differs from one database to the next, and every theorem
      that needs a well-typed body says so in a hypothesis;
    - [file.save] is recorded as a write of the store's [files].  It fails
      on a path that ends with a slash, which names a directory; whether
      the upload folder exists is outside the model;
    - werkzeug's password hashing and [secure_filename], the token issuer
      and [datetime]'s parsing and printing are the fields of [externals]. *)

From Stdlib Require Import ZArith List String Ascii Bool Lia.
Import ListNotations.

Local Open Scope string_scope.
Local Open Scope Z_scope.
Local Open Scope list_scope.

(** ** Python values and exceptions *)

Set Warnings "-register-all".

Inductive pyval : Type :=
| PNone
| PInt (n : Z)
| PStr (s : string)
| PList (l : list pyval)
| PDict (d : list (string * pyval)).

Inductive exn : Type :=
| KeyError (k : string)
| TypeError
| AttributeError
| ValueError
| IntegrityError
| DataError
| OverflowError
| IsADirectoryError
| HTTPException (code : Z) (description : string).

Inductive result (A : Type) : Type :=
| Ok (a : A)
| Raise (e : exn).

Arguments Ok {A} a.
Arguments Raise {A} e.

Definition bind {A B : Type} (c : result A) (k : A -> result B) : result B :=
  match c with
  | Ok a => k a
  | Raise e => Raise e
  end.

Notation "x <- c ;; k" := (bind c (fun x => k))
  (at level 61, c at next level, right associativity).

(** Python's truth value of an object: [not data] is [negb (truthy data)]. *)
Definition truthy (v : pyval) : bool :=
  match v with
  | PNone => false
  | PInt n => negb (n =? 0)
  | PStr s => negb (s =? "")%string
  | PList l => match l with [] => false | _ :: _ => true end
  | PDict d => match d with [] => false | _ :: _ => true end
  end.

Fixpoint lookup (k : string) (d : list (string * pyval)) : option pyval :=
  match d with
  | [] => None
  | (k', v) :: d' => if (k' =? k)%string then Some v else lookup k d'
  end.

Definition is_str (k : string) (v : pyval) : bool :=
  match v with
  | PStr s => (s =? k)%string
  | _ => false
  end.

Definition is_some {A : Type} (o : option A) : bool :=
  match o with
  | Some _ => true
  | None => false
  end.

(** [k in data], for a string [k]. *)
Definition contains (k : string) (data : pyval) : result bool :=
  match data with
  | PDict d => Ok (is_some (lookup k d))
  | PList l => Ok (existsb (is_str k) l)
  | PStr s => Ok (is_some (index 0 k s))
  | PNone | PInt _ => Raise TypeError
  end.

(** [all(k in data for k in keys)]: stops at the first key that is missing. *)
Fixpoint all_in (keys : list string) (data : pyval) : result bool :=
  match keys with
  | [] => Ok true
  | k :: keys' =>
      b <- contains k data ;;
      if b then all_in keys' data else Ok false
  end.

(** [data[k]], for a string [k]. *)
Definition getitem (data : pyval) (k : string) : result pyval :=
  match data with
  | PDict d =>
      match lookup k d with
      | Some v => Ok v
      | None => Raise (KeyError k)
      end
  | _ => Raise TypeError
  end.

(** [data.get(k, default)]; [data.get(k)] is [get data k PNone]. *)
Definition get (data : pyval) (k : string) (default : pyval) : result pyval :=
  match data with
  | PDict d =>
      match lookup k d with
      | Some v => Ok v
      | None => Ok default
      end
  | _ => Raise AttributeError
  end.

(** A Python function that needs a [str] argument. *)
Definition str_arg (v : pyval) : result string :=
  match v with
  | PStr s => Ok s
  | _ => Raise TypeError
  end.

(** ** Columns: what the database takes for each declared type *)

(** [String] or [Text] with [nullable=False]. *)
Definition as_string (v : pyval) : result string :=
  match v with
  | PStr s => Ok s
  | PNone => Raise IntegrityError
  | _ => Raise DataError
  end.

(** [String] or [Text], nullable. *)
Definition as_opt_string (v : pyval) : result (option string) :=
  match v with
  | PStr s => Ok (Some s)
  | PNone => Ok None
  | _ => Raise DataError
  end.

(** The integers an [Integer] column holds. *)
Definition fits_integer (n : Z) : bool := (- 2 ^ 63 <=? n) && (n <? 2 ^ 63).

(** [Integer], written from a Python [int]. *)
Definition as_integer (n : Z) : result Z :=
  if fits_integer n then Ok n else Raise OverflowError.

(** [Integer], nullable. *)
Definition as_opt_int (v : pyval) : result (option Z) :=
  match v with
  | PInt n => if fits_integer n then Ok (Some n) else Raise OverflowError
  | PNone => Ok None
  | _ => Raise DataError
  end.

Definition of_opt_string (o : option string) : pyval :=
  match o with
  | Some s => PStr s
  | None => PNone
  end.

Definition of_opt_int (o : option Z) : pyval :=
  match o with
  | Some n => PInt n
  | None => PNone
  end.

(** A naive UTC [datetime], in seconds. *)
Definition datetime : Type := Z.

(** ** The tables *)

Module User.
Record t : Type := mk {
  id : Z;
  name : string;
  email : string;
  password_hash : string;
  type : option string
}.
End User.

Module Course.
Record t : Type := mk {
  id : Z;
  title : string;
  description : option string;
  teacher_id : Z
}.
End Course.

Module Assignment.
Record t : Type := mk {
  id : Z;
  name : string;
  due_date : datetime;
  course_id : option Z;
  description : option string
}.
End Assignment.

Module Enrollment.
Record t : Type := mk {
  id : Z;
  course_id : Z;
  student_id : Z;
  enroll_date : datetime
}.
End Enrollment.

Module AssignmentSubmission.
Record t : Type := mk {
  id : Z;
  student_id : Z;
  assignment_id : Z;
  marks : option Z;
  feedback : option string;
  submission_date : datetime
}.
End AssignmentSubmission.

(** The store: the five tables of [db] and the files that [file.save] wrote,
    each a path with its content. *)
Record state : Type := mkState {
  users : list User.t;
  courses : list Course.t;
  assignments : list Assignment.t;
  enrollments : list Enrollment.t;
  submissions : list AssignmentSubmission.t;
  files : list (string * string)
}.

Definition set_users (st : state) (us : list User.t) : state :=
  mkState us (courses st) (assignments st) (enrollments st) (submissions st) (files st).

Definition set_courses (st : state) (cs : list Course.t) : state :=
  mkState (users st) cs (assignments st) (enrollments st) (submissions st) (files st).

Definition set_assignments (st : state) (l : list Assignment.t) : state :=
  mkState (users st) (courses st) l (enrollments st) (submissions st) (files st).

Definition set_enrollments (st : state) (es : list Enrollment.t) : state :=
  mkState (users st) (courses st) (assignments st) es (submissions st) (files st).

Definition set_submissions (st : state) (ss : list AssignmentSubmission.t) : state :=
  mkState (users st) (courses st) (assignments st) (enrollments st) ss (files st).

Definition set_files (st : state) (fs : list (string * string)) : state :=
  mkState (users st) (courses st) (assignments st) (enrollments st) (submissions st) fs.

(** The primary key of a new row. *)
Definition fresh_id {A : Type} (key : A -> Z) (rows : list A) : Z :=
  1 + fold_right (fun r m => Z.max (key r) m) 0 rows.

(** [db.session.delete(row)] of the first row that [p] holds of. *)
Fixpoint remove_first {A : Type} (p : A -> bool) (rows : list A) : list A :=
  match rows with
  | [] => []
  | r :: rows' => if p r then rows' else r :: remove_first p rows'
  end.

(** The first row that [p] holds of, changed by [f]. *)
Fixpoint update_first {A : Type} (p : A -> bool) (f : A -> A) (rows : list A) : list A :=
  match rows with
  | [] => []
  | r :: rows' => if p r then f r :: rows' else r :: update_first p f rows'
  end.

(** [file.save(path)]: the file at [path] is replaced, or created. *)
Fixpoint write_file (path content : string) (fs : list (string * string))
  : list (string * string) :=
  match fs with
  | [] => [(path, content)]
  | (p, c) :: fs' =>
      if (p =? path)%string then (path, content) :: fs'
      else (p, c) :: write_file path content fs'
  end.

(** Whether a path names a directory by its last character. *)
Fixpoint ends_with_slash (s : string) : bool :=
  match s with
  | EmptyString => false
  | String c EmptyString => Ascii.eqb c "/"%char
  | String _ s' => ends_with_slash s'
  end.

(** [file.save(path)] as the handler sees it: a path that names a directory
    cannot be opened for writing. *)
Definition file_save (path content : string) (fs : list (string * string))
  : result (list (string * string)) :=
  if ends_with_slash path then Raise IsADirectoryError
  else Ok (write_file path content fs).

Fixpoint read_file (path : string) (fs : list (string * string)) : option string :=
  match fs with
  | [] => None
  | (p, c) :: fs' => if (p =? path)%string then Some c else read_file path fs'
  end.

(** ** Requests and responses *)

(** What a handler reads of a request: the identity [get_jwt_identity()]
    gives, [request.json], [request.files] (a field name with the file's
    name and content), the salt [generate_password_hash] draws and the clock
    [datetime.utcnow] reads. *)
Record request : Type := mkRequest {
  identity : option Z;
  json : pyval;
  rfiles : list (string * (string * string));
  salt : string;
  now : datetime
}.

Inductive payload : Type :=
| Json (v : pyval)
| Html (description : string).

Record response : Type := mkResponse {
  status : Z;
  body : payload
}.

(** [jsonify(...), code]. *)
Definition jsonify (v : pyval) (code : Z) : response := mkResponse code (Json v).

Definition message (m : string) : pyval := PDict [("message", PStr m)].

(** The library functions [app.py] calls. *)
Record externals : Type := mkExternals {
  generate_password_hash : string -> string -> string;
  check_password_hash : string -> string -> bool;
  create_access_token : Z -> string;
  secure_filename : string -> string;
  strptime : string -> string -> option datetime;
  isoformat : datetime -> string
}.

(** [app.config['UPLOAD_FOLDER']], as [app.py] sets it. *)
Definition UPLOAD_FOLDER : string := "/path/to/upload/folder".

Definition starts_with_slash (s : string) : bool :=
  match s with
  | String c _ => Ascii.eqb c "/"%char
  | EmptyString => false
  end.

(** [os.path.join(a, b)] on a POSIX system. *)
Definition path_join (a b : string) : string :=
  if starts_with_slash b then b
  else if ends_with_slash a then (a ++ b)%string
  else if (a =? "")%string then b
  else (a ++ "/" ++ b)%string.

(** A submission with its marks and feedback replaced. *)
Definition marked (m : option Z) (f : option string) (s : AssignmentSubmission.t)
  : AssignmentSubmission.t :=
  AssignmentSubmission.mk (AssignmentSubmission.id s)
    (AssignmentSubmission.student_id s) (AssignmentSubmission.assignment_id s)
    m f (AssignmentSubmission.submission_date s).

(** The queries of the handlers. *)
Definition owned_by (course_id teacher : Z) (c : Course.t) : bool :=
  (Course.id c =? course_id) && (Course.teacher_id c =? teacher).

(** [Course.query.filter_by(id=course_id, teacher_id=teacher).first()]. *)
Definition owned_course (st : state) (course_id teacher : Z) : option Course.t :=
  find (owned_by course_id teacher) (courses st).

Definition submission_of (assignment_id student_id : Z) (s : AssignmentSubmission.t) : bool :=
  (AssignmentSubmission.assignment_id s =? assignment_id)
  && (AssignmentSubmission.student_id s =? student_id).

Definition enrollment_of (course_id student_id : Z) (e : Enrollment.t) : bool :=
  (Enrollment.course_id e =? course_id) && (Enrollment.student_id e =? student_id).

Definition in_course (course_id : Z) (a : Assignment.t) : bool :=
  match Assignment.course_id a with
  | Some c => c =? course_id
  | None => false
  end.

(** [User.query.filter_by(email=v).first()]: no row has a null email. *)
Definition user_by_email (st : state) (v : pyval) : result (option User.t) :=
  match v with
  | PStr e => Ok (find (fun u => (User.email u =? e)%string) (users st))
  | PNone => Ok None
  | _ => Raise DataError
  end.

Definition course_json (c : Course.t) : pyval :=
  PDict [("id", PInt (Course.id c)); ("title", PStr (Course.title c));
         ("description", of_opt_string (Course.description c))].

Definition user_json (u : User.t) : pyval :=
  PDict [("id", PInt (User.id u)); ("name", PStr (User.name u));
         ("email", PStr (User.email u)); ("type", of_opt_string (User.type u))].

Definition not_owner : response :=
  jsonify (message "Course not found or unauthorized access") 404.

(** [@jwt_required()]: the handler runs with the token's identity; without a
    token the extension answers for it. *)
Definition jwt_required (st : state) (q : request)
    (view : Z -> result (state * response)) : result (state * response) :=
  match identity q with
  | Some who => view who
  | None => Ok (st, jsonify (PDict [("msg", PStr "Missing Authorization Header")]) 401)
  end.

(** ** The handlers *)

Section Handlers.

Variable ext : externals.

Definition register (st : state) (q : request) : result (state * response) :=
  let data := json q in
  complete <- (if truthy data
               then all_in ["name"; "email"; "password"; "type"] data
               else Ok false) ;;
  if negb complete then Raise (HTTPException 400 "Missing data for registration")
  else
    email <- getitem data "email" ;;
    found <- user_by_email st email ;;
    match found with
    | Some _ => Ok (st, jsonify (message "Email already used") 409)
    | None =>
        name <- getitem data "name" ;;
        type <- getitem data "type" ;;
        password <- getitem data "password" ;;
        password <- str_arg password ;;
        name <- as_string name ;;
        email <- as_string email ;;
        type <- as_opt_string type ;;
        let user := User.mk (fresh_id User.id (users st)) name email
                      (generate_password_hash ext (salt q) password) type in
        Ok (set_users st (users st ++ [user]), jsonify (user_json user) 201)
    end.

Definition login (st : state) (q : request) : result (state * response) :=
  let data := json q in
  email <- getitem data "email" ;;
  found <- user_by_email st email ;;
  let invalid := Ok (st, jsonify (message "Invalid credentials") 401) in
  match found with
  | None => invalid
  | Some user =>
      password <- getitem data "password" ;;
      password <- str_arg password ;;
      if check_password_hash ext (User.password_hash user) password
      then Ok (st, jsonify (PDict [("access_token",
                                    PStr (create_access_token ext (User.id user)))]) 200)
      else invalid
  end.

Definition get_users (st : state) (q : request) : result (state * response) :=
  Ok (st, jsonify (PList (map user_json (users st))) 200).

Definition create_course (st : state) (q : request) : result (state * response) :=
  jwt_required st q (fun who =>
    let data := json q in
    title <- getitem data "title" ;;
    description <- get data "description" PNone ;;
    title <- as_string title ;;
    description <- as_opt_string description ;;
    let course := Course.mk (fresh_id Course.id (courses st)) title description who in
    Ok (set_courses st (courses st ++ [course]),
        jsonify (PDict [("id", PInt (Course.id course));
                        ("title", PStr (Course.title course))]) 201)).

Definition get_course (course_id : Z) (st : state) (q : request)
  : result (state * response) :=
  match find (fun c => Course.id c =? course_id) (courses st) with
  | Some course => Ok (st, jsonify (course_json course) 200)
  | None => Raise (HTTPException 404 "Not Found")
  end.

Definition list_courses (st : state) (q : request) : result (state * response) :=
  jwt_required st q (fun teacher_id =>
    let found := filter (fun c => Course.teacher_id c =? teacher_id) (courses st) in
    Ok (st, jsonify (PList (map course_json found)) 200)).

Definition update_course (course_id : Z) (st : state) (q : request)
  : result (state * response) :=
  jwt_required st q (fun who =>
    let data := json q in
    match owned_course st course_id who with
    | None => Ok (st, not_owner)
    | Some course =>
        title <- get data "title" (PStr (Course.title course)) ;;
        description <- get data "description" (of_opt_string (Course.description course)) ;;
        title <- as_string title ;;
        description <- as_opt_string description ;;
        let course' := Course.mk (Course.id course) title description
                         (Course.teacher_id course) in
        Ok (set_courses st (update_first (owned_by course_id who) (fun _ => course')
                              (courses st)),
            jsonify (course_json course') 200)
    end).

(** Deleting a course leaves its assignments in place with a null
    [course_id]: the relationship [Course.assignments] has no delete
    cascade.  Enrollments and submissions are not touched. *)
Definition orphan (course_id : Z) (a : Assignment.t) : Assignment.t :=
  if in_course course_id a
  then Assignment.mk (Assignment.id a) (Assignment.name a) (Assignment.due_date a)
         None (Assignment.description a)
  else a.

Definition delete_course (course_id : Z) (st : state) (q : request)
  : result (state * response) :=
  jwt_required st q (fun who =>
    match owned_course st course_id who with
    | None => Ok (st, not_owner)
    | Some course =>
        let st' := set_courses st (remove_first (owned_by course_id who) (courses st)) in
        Ok (set_assignments st' (map (orphan (Course.id course)) (assignments st')),
            jsonify (message "Course deleted successfully") 200)
    end).

Definition upload_material (course_id : Z) (st : state) (q : request)
  : result (state * response) :=
  jwt_required st q (fun who =>
    match owned_course st course_id who with
    | None => Ok (st, not_owner)
    | Some _ =>
        match find (fun f => (fst f =? "file")%string) (rfiles q) with
        | None => Ok (st, jsonify (message "No file part found in the request") 400)
        | Some (_, (filename, content)) =>
            if (filename =? "")%string
            then Ok (st, jsonify (message "No file selected") 400)
            else
              let filename := secure_filename ext filename in
              saved <- file_save (path_join UPLOAD_FOLDER filename) content (files st) ;;
              Ok (set_files st saved,
                  jsonify (message "File uploaded successfully") 201)
        end
    end).

Definition list_course_students (course_id : Z) (st : state) (q : request)
  : result (state * response) :=
  jwt_required st q (fun who =>
    match owned_course st course_id who with
    | None => Ok (st, not_owner)
    | Some _ =>
        let found := filter (fun e => Enrollment.course_id e =? course_id)
                       (enrollments st) in
        Ok (st, jsonify (PList (map (fun e =>
                  PDict [("student_id", PInt (Enrollment.student_id e))]) found)) 200)
    end).

Definition remove_student_from_course (course_id student_id : Z) (st : state)
    (q : request) : result (state * response) :=
  jwt_required st q (fun who =>
    match owned_course st course_id who with
    | None => Ok (st, not_owner)
    | Some _ =>
        match find (enrollment_of course_id student_id) (enrollments st) with
        | None => Ok (st, jsonify (message "Student not enrolled in the course") 404)
        | Some _ =>
            Ok (set_enrollments st
                  (remove_first (enrollment_of course_id student_id) (enrollments st)),
                jsonify (message "Student removed successfully") 200)
        end
    end).

Definition mark_submission (course_id assignment_id student_id : Z) (st : state)
    (q : request) : result (state * response) :=
  jwt_required st q (fun who =>
    let data := json q in
    match owned_course st course_id who with
    | None => Ok (st, not_owner)
    | Some _ =>
        match find (submission_of assignment_id student_id) (submissions st) with
        | None => Ok (st, jsonify (message "Submission not found") 404)
        | Some _ =>
            marks <- get data "marks" PNone ;;
            feedback <- get data "feedback" PNone ;;
            marks <- as_opt_int marks ;;
            feedback <- as_opt_string feedback ;;
            Ok (set_submissions st
                  (update_first (submission_of assignment_id student_id)
                     (marked marks feedback) (submissions st)),
                jsonify (message "Marks and feedback updated successfully") 200)
        end
    end).

Definition add_assignment_to_course (course_id : Z) (st : state) (q : request)
  : result (state * response) :=
  jwt_required st q (fun _ =>
    let data := json q in
    due <- getitem data "due_date" ;;
    due <- str_arg due ;;
    match strptime ext due "%Y-%m-%dT%H:%M:%SZ" with
    | None => Raise ValueError
    | Some due_date =>
        name <- getitem data "name" ;;
        description <- get data "description" PNone ;;
        name <- as_string name ;;
        description <- as_opt_string description ;;
        course_id <- as_integer course_id ;;
        let assignment := Assignment.mk (fresh_id Assignment.id (assignments st))
                            name due_date (Some course_id) description in
        Ok (set_assignments st (assignments st ++ [assignment]),
            jsonify (PDict [("id", PInt (Assignment.id assignment));
                            ("name", PStr (Assignment.name assignment))]) 201)
    end).

Definition get_assignment (course_id assignment_id : Z) (st : state) (q : request)
  : result (state * response) :=
  jwt_required st q (fun _ =>
    match find (fun a => (Assignment.id a =? assignment_id) && in_course course_id a)
            (assignments st) with
    | None => Ok (st, jsonify (message "Assignment not found") 404)
    | Some a =>
        Ok (st, jsonify (PDict [("id", PInt (Assignment.id a));
                                ("name", PStr (Assignment.name a));
                                ("due_date", PStr (isoformat ext (Assignment.due_date a)));
                                ("description",
                                 of_opt_string (Assignment.description a))]) 200)
    end).

Definition enroll_student (course_id : Z) (st : state) (q : request)
  : result (state * response) :=
  jwt_required st q (fun student_id =>
    let enrollment := Enrollment.mk (fresh_id Enrollment.id (enrollments st))
                        course_id student_id (now q) in
    Ok (set_enrollments st (enrollments st ++ [enrollment]),
        jsonify (message "Student enrolled successfully") 200)).

(** ** The application: routing and error handlers *)

Inductive route : Type :=
| POST_register
| POST_login
| GET_users
| POST_courses
| GET_course (course_id : Z)
| GET_courses
| PUT_course (course_id : Z)
| DELETE_course (course_id : Z)
| POST_materials (course_id : Z)
| GET_students (course_id : Z)
| DELETE_student (course_id student_id : Z)
| PUT_mark (course_id assignment_id student_id : Z)
| POST_assignments (course_id : Z)
| GET_assignment (course_id assignment_id : Z)
| POST_enroll (course_id : Z).

Definition view (r : route) : state -> request -> result (state * response) :=
  match r with
  | POST_register => register
  | POST_login => login
  | GET_users => get_users
  | POST_courses => create_course
  | GET_course c => get_course c
  | GET_courses => list_courses
  | PUT_course c => update_course c
  | DELETE_course c => delete_course c
  | POST_materials c => upload_material c
  | GET_students c => list_course_students c
  | DELETE_student c s => remove_student_from_course c s
  | PUT_mark c a s => mark_submission c a s
  | POST_assignments c => add_assignment_to_course c
  | GET_assignment c a => get_assignment c a
  | POST_enroll c => enroll_student c
  end.

(** [not_found] and [server_error], the two registered error handlers; an
    HTTP exception of another code gets Flask's own page. *)
Definition handle_exception (e : exn) : response :=
  match e with
  | HTTPException code description =>
      if code =? 404 then jsonify (message "Resource not found") 404
      else if code =? 500 then jsonify (message "Server error") 500
      else mkResponse code (Html description)
  | _ => jsonify (message "Server error") 500
  end.

(** One request: the view runs, and a raised exception leaves the store as
    it was. *)
Definition serve (r : route) (st : state) (q : request) : state * response :=
  match view r st q with
  | Ok out => out
  | Raise e => (st, handle_exception e)
  end.

End Handlers.

(** ** A small school, to run the handlers on *)

(** Stand-ins for the library functions: the hash is the salt, a [$] and
    the password, a token is a fixed tag, a file name is kept as it is, and
    the parser knows one date. *)
Definition toy_ext : externals :=
  mkExternals
    (fun salt password => (salt ++ "$" ++ password)%string)
    (fun pwhash password => is_some (index 0 ("$" ++ password)%string pwhash))
    (fun who => if who =? 1 then "token-1" else "token-n")
    (fun filename => filename)
    (fun s fmt => if (s =? "2024-05-31T23:59:59Z")%string then Some 1717199999 else None)
    (fun _ => "2024-05-31T23:59:59").

(** Two teachers and a student; each teacher owns one course; the one
    assignment belongs to the second teacher's course, and the student has
    handed in a submission for it. *)
Definition school : state :=
  mkState
    [User.mk 1 "Teacher 1" "teacher1@test.com" "s1$securepassword" (Some "teacher");
     User.mk 2 "Teacher 2" "teacher2@test.com" "s2$securepassword" (Some "teacher");
     User.mk 3 "Student 1" "student1@test.com" "s3$securepassword" (Some "student")]
    [Course.mk 1 "Math 101" (Some "Basic Math") 1;
     Course.mk 2 "Science 101" (Some "Basic Science") 2]
    [Assignment.mk 1 "Assignment 1" 1717199999 (Some 2) (Some "Solve problems")]
    []
    [AssignmentSubmission.mk 1 3 1 (Some 40) (Some "Try again") 1717100000]
    [].

Definition empty_store : state := mkState [] [] [] [] [] [].


(** A request with a JSON body, sent with the token of [who]. *)
Definition as_user (who : Z) (data : pyval) : request :=
  mkRequest (Some who) data [] "salt" 1717200000.

(** A request with a JSON body and no Authorization header. *)
Definition anonymous (data : pyval) : request :=
  mkRequest None data [] "salt" 1717200000.

(** A multipart request of [who] with one file in the field [field]. *)
Definition with_file (who : Z) (field filename content : string) : request :=
  mkRequest (Some who) PNone [(field, (filename, content))] "salt" 1717200000.

Definition new_student : pyval :=
  PDict [("name", PStr "Student 2"); ("email", PStr "student2@test.com");
         ("password", PStr "securepassword"); ("type", PStr "student")].

Definition marking (m : Z) (f : string) : pyval :=
  PDict [("marks", PInt m); ("feedback", PStr f)].

(** ** Vocabulary of the statements *)

(** [request.files['file']], when the request has such a part. *)
Definition file_part (q : request) : option (string * (string * string)) :=
  find (fun f => (fst f =? "file")%string) (rfiles q).

(** The fields [register] asks for. *)
Definition registration_keys : list string := ["name"; "email"; "password"; "type"].

(** The value [data.get(k)] gives on a dict. *)
Definition field_or_none (d : list (string * pyval)) (k : string) : pyval :=
  match lookup k d with
  | Some v => v
  | None => PNone
  end.

(** The store with the marks and feedback of every submission blanked. *)
Definition forget_marks (st : state) : state :=
  set_submissions st (map (marked None None) (submissions st)).

(** Two stores that no request can tell apart by its response. *)
Definition same_responses (ext : externals) (st1 st2 : state) : Prop :=
  forall (r : route) (q : request), snd (serve ext r st1 q) = snd (serve ext r st2 q).

(** The value [data.get(k, default)] gives on a dict. *)
Definition field_or (d : list (string * pyval)) (k : string) (default : pyval) : pyval :=
  match lookup k d with
  | Some v => v
  | None => default
  end.

(** The routes behind [@jwt_required()]. *)
Definition protected (r : route) : bool :=
  match r with
  | POST_register | POST_login | GET_users | GET_course _ => false
  | _ => true
  end.

(** The routes that query the users table. *)
Definition reads_users (r : route) : bool :=
  match r with
  | POST_register | POST_login | GET_users => true
  | _ => false
  end.

(** The routes that can only read. *)
Definition read_only (r : route) : bool :=
  match r with
  | POST_login | GET_users | GET_course _ | GET_courses | GET_students _
  | GET_assignment _ _ => true
  | _ => false
  end.

(** A user with the password hash blanked, and the store with every hash
    blanked. *)
Definition without_hash (u : User.t) : User.t :=
  User.mk (User.id u) (User.name u) (User.email u) "" (User.type u).

Definition forget_hashes (st : state) : state :=
  set_users st (map without_hash (users st)).

(** No two users share an email. *)
Definition emails_unique (st : state) : Prop :=
  NoDup (map User.email (users st)).

(** No two rows of a table share a primary key. *)
Definition keys_unique (st : state) : Prop :=
  NoDup (map User.id (users st))
  /\ NoDup (map Course.id (courses st))
  /\ NoDup (map Assignment.id (assignments st))
  /\ NoDup (map Enrollment.id (enrollments st))
  /\ NoDup (map AssignmentSubmission.id (submissions st)).

(** The entry of a student in the answer of [list_course_students]. *)
Definition student_entry (u : Z) : pyval := PDict [("student_id", PInt u)].

(** The tables of the store, the routes that write each one, and what it
    means for a table to be the same in two stores. *)
Inductive table : Type :=
| Users
| Courses
| Assignments
| Enrollments
| Submissions
| Files.

Definition writes (r : route) : list table :=
  match r with
  | POST_register => [Users]
  | POST_courses | PUT_course _ => [Courses]
  | DELETE_course _ => [Courses; Assignments]
  | POST_assignments _ => [Assignments]
  | POST_enroll _ | DELETE_student _ _ => [Enrollments]
  | PUT_mark _ _ _ => [Submissions]
  | POST_materials _ => [Files]
  | POST_login | GET_users | GET_course _ | GET_courses | GET_students _
  | GET_assignment _ _ => []
  end.

Definition same_table (t : table) (st st' : state) : Prop :=
  match t with
  | Users => users st' = users st
  | Courses => courses st' = courses st
  | Assignments => assignments st' = assignments st
  | Enrollments => enrollments st' = enrollments st
  | Submissions => submissions st' = submissions st
  | Files => files st' = files st
  end.

(** Whether a JSON value is an object. *)
Definition is_dict (v : pyval) : bool :=
  match v with
  | PDict _ => true
  | _ => false
  end.

(** ** Tactics *)

(** Case analysis on a scrutinee that is not itself a case analysis. *)
Ltac case_scrutinee :=
  match goal with
  | |- context [match ?x with _ => _ end] =>
      lazymatch x with
      | context [match _ with _ => _ end] => fail
      | _ => destruct x eqn:?
      end
  end; cbv beta iota.

Ltac case_scrutinee_in H :=
  match type of H with
  | context [match ?x with _ => _ end] =>
      lazymatch x with
      | context [match _ with _ => _ end] => fail
      | _ => destruct x eqn:?
      end
  end; cbv beta iota in H.

Ltac unfold_views :=
  unfold register, login, get_users, create_course, get_course, list_courses,
    update_course, delete_course, upload_material, list_course_students,
    remove_student_from_course, mark_submission, add_assignment_to_course,
    get_assignment, enroll_student, jwt_required, owned_course, user_by_email,
    file_save, bind;
  cbn [forget_marks set_submissions set_assignments users courses assignments
         enrollments submissions files].

(** One request, run down to the case analyses of its view. *)
Ltac run_views :=
  unfold serve; cbn [view]; unfold_views; cbn [set_users set_courses set_files
    set_enrollments users courses assignments enrollments submissions files].

(** ** Lists of rows *)

Lemma find_none_of {A : Type} (p : A -> bool) (l : list A) :
  (forall x, In x l -> p x = false) -> find p l = None.
Proof.
  induction l as [| x l IH]; intros H; simpl.
  - reflexivity.
  - rewrite (H x (or_introl eq_refl)). apply IH.
    intros y Hy. apply H. now right.
Qed.

Lemma find_update_first {A : Type} (p : A -> bool) (f : A -> A) (l : list A) (x : A) :
  find p l = Some x -> p (f x) = true -> find p (update_first p f l) = Some (f x).
Proof.
  induction l as [| y l IH]; simpl; intros Hfind Hp.
  - discriminate.
  - destruct (p y) eqn:Hy.
    + injection Hfind as ->. simpl. now rewrite Hp.
    + simpl. rewrite Hy. now apply IH.
Qed.

Lemma find_app_last {A : Type} (p : A -> bool) (l : list A) (x : A) :
  p x = true -> exists y, find p (l ++ [x]) = Some y.
Proof.
  intros Hp. induction l as [| z l [y IH]]; simpl.
  - rewrite Hp. now exists x.
  - destruct (p z); [now exists z | now exists y].
Qed.


Lemma all_in_dict (keys : list string) (d : list (string * pyval)) :
  all_in keys (PDict d) = Ok (forallb (fun k => is_some (lookup k d)) keys).
Proof.
  induction keys as [| k keys IH]; simpl.
  - reflexivity.
  - destruct (lookup k d); simpl; [exact IH | reflexivity].
Qed.

Lemma register_checks_keys (d : list (string * pyval)) :
  (if truthy (PDict d) then all_in registration_keys (PDict d) else Ok false)
  = Ok (forallb (fun k => is_some (lookup k d)) registration_keys).
Proof.
  destruct d as [| kv d].
  - reflexivity.
  - cbn [truthy]. apply all_in_dict.
Qed.

Lemma keys_present (d : list (string * pyval)) (keys : list string) :
  (forall k, In k keys -> lookup k d <> None) ->
  forallb (fun k => is_some (lookup k d)) keys = true.
Proof.
  intros H. apply forallb_forall. intros k Hk.
  specialize (H k Hk). now destruct (lookup k d).
Qed.

Lemma key_missing (d : list (string * pyval)) (keys : list string) (k : string) :
  In k keys -> lookup k d = None ->
  forallb (fun k => is_some (lookup k d)) keys = false.
Proof.
  intros Hk Hnone.
  destruct (forallb (fun k => is_some (lookup k d)) keys) eqn:E; [| reflexivity].
  rewrite forallb_forall in E. specialize (E k Hk). now rewrite Hnone in E.
Qed.



(** ** Courses: who may change them *)

Section CourseOwnership.

Variable ext : externals.


End CourseOwnership.


(** ** Registration *)

Section Registration.

Variable ext : externals.

(** C2.  POST /register with a JSON object as body: when one of name, email,
    password and type is missing the request is aborted with status 400 and
    nothing is stored; when a user with the given email exists the answer
    is 409 "Email already used"; otherwise (name, email and password strings,
    type a string or null) a user is stored whose password hash is
    [generate_password_hash] of the password under the request's salt, and
    the answer is 201 with the new id, name, email and type.  Registering
    the same email again after that is answered 409. *)
Theorem register_contract (st : state) (q : request) (d : list (string * pyval)) :
  json q = PDict d ->
  ((exists k, In k registration_keys /\ lookup k d = None) ->
   serve ext POST_register st q
   = (st, mkResponse 400 (Html "Missing data for registration")))
  /\ (forall e known,
        (forall k, In k registration_keys -> lookup k d <> None) ->
        lookup "email" d = Some (PStr e) ->
        find (fun u => (User.email u =? e)%string) (users st) = Some known ->
        serve ext POST_register st q = (st, jsonify (message "Email already used") 409))
  /\ (forall n e p t ty,
        lookup "name" d = Some (PStr n) ->
        lookup "email" d = Some (PStr e) ->
        lookup "password" d = Some (PStr p) ->
        lookup "type" d = Some t -> as_opt_string t = Ok ty ->
        (forall u, In u (users st) -> User.email u <> e) ->
        let user := User.mk (fresh_id User.id (users st)) n e
                      (generate_password_hash ext (salt q) p) ty in
        serve ext POST_register st q
        = (set_users st (users st ++ [user]),
           jsonify (PDict [("id", PInt (User.id user)); ("name", PStr n);
                           ("email", PStr e); ("type", of_opt_string ty)]) 201)
        /\ forall q2 d2,
             json q2 = PDict d2 ->
             (forall k, In k registration_keys -> lookup k d2 <> None) ->
             lookup "email" d2 = Some (PStr e) ->
             serve ext POST_register (set_users st (users st ++ [user])) q2
             = (set_users st (users st ++ [user]),
                jsonify (message "Email already used") 409)).
Proof.
  intros Hjson.
  assert (Hcheck : forall b,
            forallb (fun k => is_some (lookup k d)) registration_keys = b ->
            register ext st q
            = (if negb b then Raise (HTTPException 400 "Missing data for registration")
               else
                 email <- getitem (PDict d) "email" ;;
                 found <- user_by_email st email ;;
                 match found with
                 | Some _ => Ok (st, jsonify (message "Email already used") 409)
                 | None =>
                     name <- getitem (PDict d) "name" ;;
                     type <- getitem (PDict d) "type" ;;
                     password <- getitem (PDict d) "password" ;;
                     password <- str_arg password ;;
                     name <- as_string name ;;
                     email <- as_string email ;;
                     type <- as_opt_string type ;;
                     let user := User.mk (fresh_id User.id (users st)) name email
                                   (generate_password_hash ext (salt q) password) type in
                     Ok (set_users st (users st ++ [user]), jsonify (user_json user) 201)
                 end)).
  { intros b Hb. unfold register. rewrite Hjson, register_checks_keys, Hb.
    reflexivity. }
  split; [| split].
  - intros (k & Hk & Hnone).
    unfold serve, view. rewrite (Hcheck false) by (now apply key_missing with k).
    reflexivity.
  - intros e known Hall He Hknown.
    unfold serve, view. rewrite (Hcheck true) by (now apply keys_present).
    simpl. rewrite He. simpl. now rewrite Hknown.
  - intros n e p t ty Hn He Hp Ht Hty Hnew user.
    assert (Hall : forallb (fun k => is_some (lookup k d)) registration_keys = true).
    { simpl. now rewrite Hn, He, Hp, Ht. }
    split.
    + unfold serve, view. rewrite (Hcheck true Hall).
      simpl. rewrite He. simpl.
      rewrite find_none_of.
      * rewrite Hn, Ht, Hp. simpl. rewrite Hty. simpl.
        reflexivity.
      * intros u Hu. apply String.eqb_neq. now apply Hnew.
    + intros q2 d2 Hjson2 Hall2 He2.
      unfold serve, view, register.
      rewrite Hjson2, register_checks_keys, keys_present by assumption.
      simpl. rewrite He2. simpl.
      destruct (find_app_last (fun u => (User.email u =? e)%string) (users st) user)
        as [y Hy].
      * apply String.eqb_refl.
      * now rewrite Hy.
Qed.

End Registration.

Lemma register_contract_witness :
  json (anonymous new_student) = new_student
  /\ (let user := User.mk 4 "Student 2" "student2@test.com" "salt$securepassword"
                    (Some "student") in
      serve toy_ext POST_register school (anonymous new_student)
      = (set_users school (users school ++ [user]),
         jsonify (PDict [("id", PInt 4); ("name", PStr "Student 2");
                         ("email", PStr "student2@test.com");
                         ("type", PStr "student")]) 201)
      /\ serve toy_ext POST_register (set_users school (users school ++ [user]))
           (anonymous new_student)
         = (set_users school (users school ++ [user]),
            jsonify (message "Email already used") 409)).
Proof.
  split; [reflexivity |].
  destruct (register_contract toy_ext school (anonymous new_student) _ eq_refl)
    as (_ & _ & Hnew).
  specialize (Hnew "Student 2" "student2@test.com" "securepassword"
                (PStr "student") (Some "student")
                eq_refl eq_refl eq_refl eq_refl eq_refl)%string.
  destruct Hnew as [Hfirst Hagain].
  - simpl. intros u [<- | [<- | [<- | []]]]; discriminate.
  - split.
    + exact Hfirst.
    + apply (Hagain (anonymous new_student) _ eq_refl); [| reflexivity].
      simpl. intros k [<- | [<- | [<- | [<- | []]]]]; discriminate.
Defined.

(** ** Reading courses *)

Section CourseReads.

Variable ext : externals.


End CourseReads.



(** ** Bodies with a field missing *)

Section MissingFields.

Variable ext : externals.

(** C4, what the code does.  Only [register] looks for its fields before it
    reads them.  [create_course], [add_assignment_to_course] and [login]
    read [data['title']], [data['due_date']], [data['name']],
    [data['email']] and [data['password']] straight away, so a JSON object
    without the field raises [KeyError] and the request ends in the 500 of
    [server_error], not in a 400.  A login without a password for an email
    nobody registered is answered 401. *)
Theorem missing_field_is_server_error (st : state) (q : request)
    (d : list (string * pyval)) :
  json q = PDict d ->
  let failed := (st, jsonify (message "Server error") 500) in
  (forall who, identity q = Some who -> lookup "title" d = None ->
     serve ext POST_courses st q = failed)
  /\ (forall who c, identity q = Some who -> lookup "due_date" d = None ->
        serve ext (POST_assignments c) st q = failed)
  /\ (forall who c due t, identity q = Some who ->
        lookup "due_date" d = Some (PStr due) ->
        strptime ext due "%Y-%m-%dT%H:%M:%SZ" = Some t ->
        lookup "name" d = None ->
        serve ext (POST_assignments c) st q = failed)
  /\ (lookup "email" d = None -> serve ext POST_login st q = failed)
  /\ (forall e user,
        lookup "email" d = Some (PStr e) ->
        find (fun u => (User.email u =? e)%string) (users st) = Some user ->
        lookup "password" d = None ->
        serve ext POST_login st q = failed)
  /\ (forall e,
        lookup "email" d = Some (PStr e) ->
        find (fun u => (User.email u =? e)%string) (users st) = None ->
        serve ext POST_login st q = (st, jsonify (message "Invalid credentials") 401)).
Proof.
  intros Hjson failed. unfold failed, serve, view.
  split; [| split; [| split; [| split; [| split]]]].
  - intros who Hid Htitle.
    unfold create_course, jwt_required. rewrite Hid, Hjson. cbn. now rewrite Htitle.
  - intros who c Hid Hdue.
    unfold add_assignment_to_course, jwt_required. rewrite Hid, Hjson. cbn.
    now rewrite Hdue.
  - intros who c due t Hid Hdue Hparse Hname.
    unfold add_assignment_to_course, jwt_required. rewrite Hid, Hjson. cbn.
    rewrite Hdue. cbn. rewrite Hparse. cbn. now rewrite Hname.
  - intros Hemail. unfold login. rewrite Hjson. cbn. now rewrite Hemail.
  - intros e user Hemail Huser Hpw. unfold login. rewrite Hjson. cbn.
    rewrite Hemail. cbn. rewrite Huser. now rewrite Hpw.
  - intros e Hemail Huser. unfold login. rewrite Hjson. cbn.
    rewrite Hemail. cbn. now rewrite Huser.
Qed.

End MissingFields.

Lemma missing_field_is_server_error_witness :
  serve toy_ext POST_courses school (as_user 1 (PDict [("description", PStr "Basic Math")]))
  = (school, jsonify (message "Server error") 500)
  /\ serve toy_ext (POST_assignments 1) school
       (as_user 1 (PDict [("name", PStr "Assignment 2")]))
     = (school, jsonify (message "Server error") 500)
  /\ serve toy_ext POST_login school
       (anonymous (PDict [("password", PStr "securepassword")]))
     = (school, jsonify (message "Server error") 500).
Proof.
  split; [| split].
  - now apply (missing_field_is_server_error toy_ext school
                 (as_user 1 (PDict [("description", PStr "Basic Math")])) _ eq_refl)
      with (who := 1).
  - now apply (missing_field_is_server_error toy_ext school
                 (as_user 1 (PDict [("name", PStr "Assignment 2")])) _ eq_refl)
      with (who := 1).
  - now apply (missing_field_is_server_error toy_ext school
                 (anonymous (PDict [("password", PStr "securepassword")])) _ eq_refl).
Defined.

(** ** Marking a submission *)

Lemma find_map_same {A : Type} (p : A -> bool) (f : A -> A) (l : list A) :
  (forall x, p (f x) = p x) ->
  find p (map f l) = option_map f (find p l).
Proof.
  intros Hp. induction l as [| x l IH]; simpl.
  - reflexivity.
  - rewrite Hp. destruct (p x); [reflexivity | exact IH].
Qed.

Lemma submission_of_marked (a s : Z) (m : option Z) (f : option string)
    (x : AssignmentSubmission.t) :
  submission_of a s (marked m f x) = submission_of a s x.
Proof. reflexivity. Qed.

Section Marking.

Variable ext : externals.

(** No view reads the marks or the feedback of a submission: the response
    to a request is the same on the store with all of them blanked. *)
Lemma serve_forget_marks (r : route) (st : state) (q : request) :
  snd (serve ext r st q) = snd (serve ext r (forget_marks st) q).
Proof.
  unfold serve.
  destruct r; cbn [view]; unfold_views;
    try (rewrite (find_map_same _ _ _ (submission_of_marked _ _ None None));
         unfold option_map);
    repeat case_scrutinee; reflexivity.
Qed.

(** What a marking request does once the course and the submission are
    found and the body is a dict with values of the columns' types. *)
Lemma mark_submission_ok (st : state) (q : request) (c a s who : Z)
    (course : Course.t) (sub : AssignmentSubmission.t) (d : list (string * pyval))
    (m : option Z) (f : option string) :
  identity q = Some who ->
  owned_course st c who = Some course ->
  find (submission_of a s) (submissions st) = Some sub ->
  json q = PDict d ->
  as_opt_int (field_or_none d "marks") = Ok m ->
  as_opt_string (field_or_none d "feedback") = Ok f ->
  mark_submission c a s st q
  = Ok (set_submissions st
          (update_first (submission_of a s) (marked m f) (submissions st)),
        jsonify (message "Marks and feedback updated successfully") 200).
Proof.
  intros Hid Hown Hsub Hjson Hm Hf.
  unfold mark_submission, jwt_required, get.
  rewrite Hid, Hown, Hsub, Hjson.
  unfold field_or_none in Hm, Hf.
  destruct (lookup "marks" d); destruct (lookup "feedback" d);
    cbn [bind]; rewrite Hm; cbn [bind]; rewrite Hf; reflexivity.
Qed.

(** C5, as the code has it.  After the owning teacher marks an existing
    submission with marks [m], an integer the column holds, and feedback
    [f], the first submission stored for the assignment and the student
    holds exactly [m] and [f].  No route reads them back: every later
    request gets the response it would get with all marks and feedback
    blanked. *)
Theorem marking_stores_marks_unread (st : state) (q : request) (c a s who : Z)
    (course : Course.t) (sub : AssignmentSubmission.t) (d : list (string * pyval))
    (m : Z) (f : string) :
  identity q = Some who ->
  owned_course st c who = Some course ->
  find (submission_of a s) (submissions st) = Some sub ->
  json q = PDict d ->
  lookup "marks" d = Some (PInt m) ->
  fits_integer m = true ->
  lookup "feedback" d = Some (PStr f) ->
  exists st',
    serve ext (PUT_mark c a s) st q
    = (st', jsonify (message "Marks and feedback updated successfully") 200)
    /\ find (submission_of a s) (submissions st') = Some (marked (Some m) (Some f) sub)
    /\ AssignmentSubmission.marks (marked (Some m) (Some f) sub) = Some m
    /\ AssignmentSubmission.feedback (marked (Some m) (Some f) sub) = Some f
    /\ forall r q', snd (serve ext r st' q') = snd (serve ext r (forget_marks st') q').
Proof.
  intros Hid Hown Hsub Hjson Hm Hfits Hf.
  eexists. split.
  - unfold serve, view.
    rewrite (mark_submission_ok st q c a s who course sub d (Some m) (Some f));
      try assumption; try reflexivity.
    + unfold field_or_none. rewrite Hm. cbn [as_opt_int]. now rewrite Hfits.
    + unfold field_or_none. now rewrite Hf.
  - split; [| split; [| split]]; try reflexivity.
    + cbn [submissions set_submissions].
      apply find_update_first; [exact Hsub |].
      rewrite submission_of_marked. now apply find_some in Hsub.
    + intros r q'. apply serve_forget_marks.
Qed.

End Marking.

Lemma marking_stores_marks_unread_witness :
  exists st',
    serve toy_ext (PUT_mark 2 1 3) school (as_user 2 (marking 90 "Great job!"))
    = (st', jsonify (message "Marks and feedback updated successfully") 200)
    /\ submissions st'
       = [AssignmentSubmission.mk 1 3 1 (Some 90) (Some "Great job!") 1717100000].
Proof.
  destruct (marking_stores_marks_unread toy_ext school
              (as_user 2 (marking 90 "Great job!")) 2 1 3 2
              (Course.mk 2 "Science 101" (Some "Basic Science") 2)
              (AssignmentSubmission.mk 1 3 1 (Some 40) (Some "Try again") 1717100000)
              _ 90 "Great job!" eq_refl eq_refl eq_refl eq_refl eq_refl eq_refl eq_refl)
    as (st' & Hserve & _).
  exists st'. split; [exact Hserve |].
  vm_compute in Hserve. now injection Hserve as <-.
Defined.

(** C5 as the specification words it fails: the same submission marked 90
    "Great job!" and marked 10 "Poor" gives two stores that differ, and that
    no request can tell apart by its response. *)
Lemma marks_are_never_read_back :
  let st_a := fst (serve toy_ext (PUT_mark 2 1 3) school
                     (as_user 2 (marking 90 "Great job!"))) in
  let st_b := fst (serve toy_ext (PUT_mark 2 1 3) school
                     (as_user 2 (marking 10 "Poor"))) in
  map AssignmentSubmission.marks (submissions st_a) = [Some 90]
  /\ map AssignmentSubmission.marks (submissions st_b) = [Some 10]
  /\ same_responses toy_ext st_a st_b.
Proof.
  split; [reflexivity |]. split; [reflexivity |].
  intros r q.
  rewrite (serve_forget_marks toy_ext r (fst (serve toy_ext (PUT_mark 2 1 3) school
             (as_user 2 (marking 90 "Great job!"))))).
  rewrite (serve_forget_marks toy_ext r (fst (serve toy_ext (PUT_mark 2 1 3) school
             (as_user 2 (marking 10 "Poor"))))).
  reflexivity.
Qed.

Lemma as_opt_int_raises (v : pyval) (e : exn) :
  as_opt_int v = Raise e -> e = DataError \/ e = OverflowError.
Proof.
  destruct v as [| n | | |]; cbn [as_opt_int]; try destruct (fits_integer n);
    intros H; try discriminate H; injection H as <-; auto.
Qed.

Lemma as_opt_string_raises (v : pyval) (e : exn) :
  as_opt_string v = Raise e -> e = DataError.
Proof. destruct v; cbn; congruence. Qed.

Section MarkingLookup.

Variable ext : externals.

(** C6.  Marking finds the submission by assignment id and student id
    alone.  Whoever owns the course named in the URL marks the first
    submission stored for the pair, whatever the assignments table says
    about the assignment (another course, another teacher's course, no such
    assignment).  The handler checks no range: every integer the column
    holds, negative ones included, is stored as the marks. *)
Theorem mark_ignores_course_of_assignment (st : state) (q : request)
    (c a s who : Z) (course : Course.t) (sub : AssignmentSubmission.t)
    (d : list (string * pyval)) (m : Z) (f : option string) :
  identity q = Some who ->
  owned_course st c who = Some course ->
  find (submission_of a s) (submissions st) = Some sub ->
  json q = PDict d ->
  lookup "marks" d = Some (PInt m) ->
  fits_integer m = true ->
  as_opt_string (field_or_none d "feedback") = Ok f ->
  forall table : list Assignment.t,
    let out := serve ext (PUT_mark c a s) (set_assignments st table) q in
    out
    = (set_assignments
         (set_submissions st
            (update_first (submission_of a s) (marked (Some m) f) (submissions st)))
         table,
       jsonify (message "Marks and feedback updated successfully") 200)
    /\ submissions (fst out)
       = update_first (submission_of a s) (marked (Some m) f) (submissions st)
    /\ find (submission_of a s) (submissions (fst out)) = Some (marked (Some m) f sub)
    /\ AssignmentSubmission.marks (marked (Some m) f sub) = Some m
    /\ assignments (fst out) = table.
Proof.
  intros Hid Hown Hsub Hjson Hm Hfits Hf table out.
  assert (Hout : out
                 = (set_assignments
                      (set_submissions st
                         (update_first (submission_of a s) (marked (Some m) f)
                            (submissions st)))
                      table,
                    jsonify (message "Marks and feedback updated successfully") 200)).
  { unfold out, serve, view.
    rewrite (mark_submission_ok (set_assignments st table) q c a s who course sub d
               (Some m) f); auto.
    unfold field_or_none. rewrite Hm. cbn [as_opt_int]. now rewrite Hfits. }
  rewrite Hout. cbn [fst]. split; [reflexivity |].
  split; [reflexivity |]. split; [| split; reflexivity].
  cbn [submissions set_assignments set_submissions].
  apply find_update_first; [assumption |].
  apply find_some in Hsub. now rewrite submission_of_marked.
Qed.

(** C10.  A marking request that succeeds leaves the first submission of
    the pair with the marks and feedback of the body; a body without the
    key 'marks' leaves the marks null, and a body without the key 'feedback'
    leaves the feedback null, whatever was stored before. *)
Theorem omitted_key_nulls_field (st st' : state) (q : request) (c a s : Z)
    (resp : response) (d : list (string * pyval)) :
  serve ext (PUT_mark c a s) st q = (st', resp) ->
  status resp = 200 ->
  json q = PDict d ->
  exists sub m f,
    find (submission_of a s) (submissions st) = Some sub
    /\ find (submission_of a s) (submissions st') = Some (marked m f sub)
    /\ (lookup "marks" d = None -> m = None)
    /\ (lookup "feedback" d = None -> f = None).
Proof.
  intros Hserve H200 Hjson.
  unfold serve, view, mark_submission, jwt_required, get in Hserve.
  rewrite Hjson in Hserve.
  destruct (identity q) as [who |];
    [| injection Hserve as <- <-; discriminate].
  destruct (owned_course st c who) as [course |];
    [| injection Hserve as <- <-; discriminate].
  destruct (find (submission_of a s) (submissions st)) as [sub |] eqn:Hsub;
    [| injection Hserve as <- <-; discriminate].
  assert (Hkept : submission_of a s sub = true) by now apply find_some in Hsub.
  unfold bind in Hserve.
  destruct (lookup "marks" d) as [vm |] eqn:Hm;
    destruct (lookup "feedback" d) as [vf |] eqn:Hf;
    repeat case_scrutinee_in Hserve;
    injection Hserve as <- <-;
    try match goal with
        | E : _ = Raise ?e |- _ =>
            first [apply as_opt_int_raises in E; destruct E as [E | E]
                  | apply as_opt_string_raises in E];
            subst e; discriminate H200
        end;
    cbn [submissions set_submissions];
    match goal with
    | |- context [marked ?m ?f] =>
        exists sub, m, f; repeat split; try discriminate;
        try (now apply find_update_first)
    end.
  - intros _. cbn in Heqr0. congruence.
  - intros _. cbn in Heqr. congruence.
  - intros _. cbn in Heqr. congruence.
  - intros _. cbn in Heqr0. congruence.
Qed.

End MarkingLookup.

Lemma mark_ignores_course_of_assignment_witness :
  map Assignment.course_id (assignments school) = [Some 2]
  /\ map Course.teacher_id (courses school) = [1; 2]
  /\ status (snd (serve toy_ext (PUT_mark 1 1 3) school
                    (as_user 1 (marking (-5) "Not my course")))) = 200
  /\ submissions (fst (serve toy_ext (PUT_mark 1 1 3) school
                         (as_user 1 (marking (-5) "Not my course"))))
     = [AssignmentSubmission.mk 1 3 1 (Some (-5)) (Some "Not my course") 1717100000].
Proof.
  split; [reflexivity |]. split; [reflexivity |].
  destruct (mark_ignores_course_of_assignment toy_ext school
              (as_user 1 (marking (-5) "Not my course")) 1 1 3 1
              (Course.mk 1 "Math 101" (Some "Basic Math") 1)
              (AssignmentSubmission.mk 1 3 1 (Some 40) (Some "Try again") 1717100000)
              _ (-5) (Some "Not my course")
              eq_refl eq_refl eq_refl eq_refl eq_refl eq_refl eq_refl
              (assignments school))
    as (Hout & Hstored & _).
  split.
  - change (serve toy_ext (PUT_mark 1 1 3) (set_assignments school (assignments school))
              (as_user 1 (marking (-5) "Not my course")))
      with (serve toy_ext (PUT_mark 1 1 3) school
              (as_user 1 (marking (-5) "Not my course"))) in Hout.
    now rewrite Hout.
  - exact Hstored.
Defined.

Lemma omitted_key_nulls_field_witness :
  map AssignmentSubmission.marks (submissions school) = [Some 40]
  /\ exists sub m f,
       find (submission_of 1 3) (submissions school) = Some sub
       /\ find (submission_of 1 3)
            [AssignmentSubmission.mk 1 3 1 None (Some "Late") 1717100000]
          = Some (marked m f sub)
       /\ m = None.
Proof.
  split; [reflexivity |].
  destruct (omitted_key_nulls_field toy_ext school
              (set_submissions school
                 [AssignmentSubmission.mk 1 3 1 None (Some "Late") 1717100000])
              (as_user 2 (PDict [("feedback", PStr "Late")])) 2 1 3
              (jsonify (message "Marks and feedback updated successfully") 200)
              [("feedback", PStr "Late")] eq_refl eq_refl eq_refl)
    as (sub & m & f & Hbefore & Hafter & Hmarks & _).
  exists sub, m, f. split; [exact Hbefore |]. split; [exact Hafter |].
  now apply Hmarks.
Defined.

(** ** Assignments, enrollments and materials *)

(** What [add_assignment_to_course] does with a well-formed body and a
    course id the column holds. *)
Lemma add_assignment_ok (ext : externals) (st : state) (q : request) (c who : Z)
    (d : list (string * pyval)) (n due : string) (t : datetime) (desc : option string) :
  identity q = Some who ->
  json q = PDict d ->
  lookup "name" d = Some (PStr n) ->
  lookup "due_date" d = Some (PStr due) ->
  strptime ext due "%Y-%m-%dT%H:%M:%SZ" = Some t ->
  as_opt_string (field_or_none d "description") = Ok desc ->
  fits_integer c = true ->
  add_assignment_to_course ext c st q
  = Ok (set_assignments st
          (assignments st
           ++ [Assignment.mk (fresh_id Assignment.id (assignments st)) n t (Some c) desc]),
        jsonify (PDict [("id", PInt (fresh_id Assignment.id (assignments st)));
                        ("name", PStr n)]) 201).
Proof.
  intros Hid Hjson Hname Hdue Hparse Hdesc Hfits.
  unfold add_assignment_to_course, jwt_required, as_integer.
  rewrite Hid, Hjson. cbn [getitem get]. rewrite Hdue. cbn [bind str_arg].
  rewrite Hparse, Hname. cbn [bind as_string].
  unfold field_or_none in Hdesc.
  destruct (lookup "description" d); cbn [bind]; rewrite Hdesc; cbn [bind];
    rewrite Hfits; reflexivity.
Qed.

Section Assignments.

Variable ext : externals.

(** C7.  With a token, POST /courses/<c>/assignments with a name and a due
    date that [strptime] reads, for a course id [c] that the Integer column
    holds, stores an assignment with [course_id = c] and answers 201 with
    its id and name, whatever the courses table holds: the course may
    belong to somebody else or not exist. *)
Theorem assignment_created_for_any_course (st : state) (q : request) (c who : Z)
    (d : list (string * pyval)) (n due : string) (t : datetime) (desc : option string) :
  identity q = Some who ->
  json q = PDict d ->
  lookup "name" d = Some (PStr n) ->
  lookup "due_date" d = Some (PStr due) ->
  strptime ext due "%Y-%m-%dT%H:%M:%SZ" = Some t ->
  as_opt_string (field_or_none d "description") = Ok desc ->
  fits_integer c = true ->
  forall table : list Course.t,
    let assignment := Assignment.mk (fresh_id Assignment.id (assignments st))
                        n t (Some c) desc in
    let out := serve ext (POST_assignments c) (set_courses st table) q in
    out
    = (set_courses (set_assignments st (assignments st ++ [assignment])) table,
       jsonify (PDict [("id", PInt (Assignment.id assignment)); ("name", PStr n)]) 201)
    /\ assignments (fst out) = assignments st ++ [assignment]
    /\ In assignment (assignments (fst out))
    /\ Assignment.course_id assignment = Some c
    /\ courses (fst out) = table.
Proof.
  intros Hid Hjson Hname Hdue Hparse Hdesc Hfits table assignment out.
  assert (Hout : out
                 = (set_courses (set_assignments st (assignments st ++ [assignment]))
                      table,
                    jsonify (PDict [("id", PInt (Assignment.id assignment));
                                    ("name", PStr n)]) 201)).
  { unfold out, serve, view.
    now rewrite (add_assignment_ok ext (set_courses st table) q c who d n due t desc). }
  rewrite Hout. cbn [fst assignments courses set_courses set_assignments].
  split; [reflexivity |]. split; [reflexivity |]. split; [| split; reflexivity].
  apply in_or_app. right. now left.
Qed.


End Assignments.

Lemma assignment_created_for_any_course_witness :
  courses empty_store = []
  /\ status (snd (serve toy_ext (POST_assignments 7) empty_store
                    (as_user 3 (PDict [("name", PStr "Assignment 1");
                                       ("due_date", PStr "2024-05-31T23:59:59Z")]))))
     = 201
  /\ assignments (fst (serve toy_ext (POST_assignments 7) empty_store
                         (as_user 3 (PDict [("name", PStr "Assignment 1");
                                            ("due_date", PStr "2024-05-31T23:59:59Z")]))))
     = [Assignment.mk 1 "Assignment 1" 1717199999 (Some 7) None].
Proof.
  split; [reflexivity |].
  destruct (assignment_created_for_any_course toy_ext empty_store
              (as_user 3 (PDict [("name", PStr "Assignment 1");
                                 ("due_date", PStr "2024-05-31T23:59:59Z")]))
              7 3 _ "Assignment 1" "2024-05-31T23:59:59Z" 1717199999 None
              eq_refl eq_refl eq_refl eq_refl eq_refl eq_refl eq_refl [])
    as (Hout & Hstored & _).
  split.
  - change (set_courses empty_store []) with empty_store in Hout. now rewrite Hout.
  - exact Hstored.
Defined.




Section Materials.

Variable ext : externals.


End Materials.


(** ** Further properties of the handlers *)

Lemma fresh_id_above {A : Type} (key : A -> Z) (rows : list A) (r : A) :
  In r rows -> key r < fresh_id key rows.
Proof.
  unfold fresh_id. induction rows as [| x rows IH]; cbn [fold_right In].
  - contradiction.
  - intros [-> | Hin]; [lia |]. specialize (IH Hin). lia.
Qed.

Lemma find_app_new {A : Type} (p : A -> bool) (l : list A) (x : A) :
  (forall y, In y l -> p y = false) -> p x = true -> find p (l ++ [x]) = Some x.
Proof.
  intros Hold Hnew. induction l as [| y l IH]; simpl.
  - now rewrite Hnew.
  - rewrite (Hold y (or_introl eq_refl)). apply IH.
    intros z Hz. apply Hold. now right.
Qed.

Lemma find_fresh_id {A : Type} (key : A -> Z) (rows : list A) (x : A) :
  key x = fresh_id key rows ->
  find (fun r => key r =? key x) (rows ++ [x]) = Some x.
Proof.
  intros Hkey. apply find_app_new.
  - intros y Hy. apply Z.eqb_neq. pose proof (fresh_id_above key rows y Hy). lia.
  - apply Z.eqb_refl.
Qed.

Lemma remove_first_app_new {A : Type} (p : A -> bool) (l : list A) (x : A) :
  (forall y, In y l -> p y = false) -> p x = true -> remove_first p (l ++ [x]) = l.
Proof.
  intros Hold Hnew. induction l as [| y l IH]; simpl.
  - now rewrite Hnew.
  - rewrite (Hold y (or_introl eq_refl)). f_equal. apply IH.
    intros z Hz. apply Hold. now right.
Qed.

(** What [register] does with a complete body of strings and a new email. *)
Lemma register_new_user (ext : externals) (st : state) (q : request)
    (d : list (string * pyval)) (n e p : string) (t : pyval) (ty : option string) :
  json q = PDict d ->
  lookup "name" d = Some (PStr n) ->
  lookup "email" d = Some (PStr e) ->
  lookup "password" d = Some (PStr p) ->
  lookup "type" d = Some t -> as_opt_string t = Ok ty ->
  (forall u, In u (users st) -> User.email u <> e) ->
  let user := User.mk (fresh_id User.id (users st)) n e
                (generate_password_hash ext (salt q) p) ty in
  register ext st q
  = Ok (set_users st (users st ++ [user]), jsonify (user_json user) 201).
Proof.
  intros Hjson Hn He Hp Ht Hty Hnew user.
  unfold register. rewrite Hjson, register_checks_keys.
  cbn [forallb registration_keys]. rewrite Hn, He, Hp, Ht. cbn.
  rewrite He. cbn. rewrite find_none_of.
  - rewrite Hn, Ht, Hp. cbn. rewrite Hty. reflexivity.
  - intros u Hu. apply String.eqb_neq. now apply Hnew.
Qed.

Section Login.

Variable ext : externals.

(** X1.  POST /login with an email and a password never changes the store.
    It answers 200 with the token of the first user of that email when
    [check_password_hash] accepts the password for the stored hash, and
    otherwise 401 "Invalid credentials", the same answer for an unknown
    email and for a wrong password. *)
Theorem login_contract (st : state) (q : request) (d : list (string * pyval))
    (e p : string) :
  json q = PDict d ->
  lookup "email" d = Some (PStr e) ->
  lookup "password" d = Some (PStr p) ->
  let found := find (fun u => (User.email u =? e)%string) (users st) in
  fst (serve ext POST_login st q) = st
  /\ (forall user,
        found = Some user ->
        check_password_hash ext (User.password_hash user) p = true ->
        snd (serve ext POST_login st q)
        = jsonify (PDict [("access_token",
                           PStr (create_access_token ext (User.id user)))]) 200)
  /\ (found = None
      \/ (exists user, found = Some user
                       /\ check_password_hash ext (User.password_hash user) p = false) ->
      snd (serve ext POST_login st q) = jsonify (message "Invalid credentials") 401).
Proof.
  intros Hjson He Hp found.
  assert (Hrun : serve ext POST_login st q
                 = match found with
                   | Some user =>
                       if check_password_hash ext (User.password_hash user) p
                       then (st, jsonify (PDict [("access_token",
                               PStr (create_access_token ext (User.id user)))]) 200)
                       else (st, jsonify (message "Invalid credentials") 401)
                   | None => (st, jsonify (message "Invalid credentials") 401)
                   end).
  { unfold serve, view, login. rewrite Hjson. cbn. rewrite He. cbn.
    fold found. destruct found as [user |]; [| reflexivity].
    rewrite Hp. cbn. now destruct (check_password_hash _ _ _). }
  rewrite Hrun. split; [| split].
  - destruct found as [user |]; [| reflexivity].
    now destruct (check_password_hash _ _ _).
  - intros user -> Hcheck. now rewrite Hcheck.
  - intros [-> | (user & -> & Hcheck)]; [reflexivity | now rewrite Hcheck].
Qed.

(** X2.  Register, then log in.  When the hash library accepts the password
    a hash was made from, a login with the email and password of a
    registration that was answered 201 is answered 200 with the token of
    the new user's id. *)
Theorem register_then_login (st : state) (q q2 : request)
    (d d2 : list (string * pyval)) (n e p : string) (t : pyval) (ty : option string) :
  json q = PDict d ->
  lookup "name" d = Some (PStr n) ->
  lookup "email" d = Some (PStr e) ->
  lookup "password" d = Some (PStr p) ->
  lookup "type" d = Some t -> as_opt_string t = Ok ty ->
  (forall u, In u (users st) -> User.email u <> e) ->
  check_password_hash ext (generate_password_hash ext (salt q) p) p = true ->
  json q2 = PDict d2 ->
  lookup "email" d2 = Some (PStr e) ->
  lookup "password" d2 = Some (PStr p) ->
  status (snd (serve ext POST_register st q)) = 201
  /\ snd (serve ext POST_login (fst (serve ext POST_register st q)) q2)
     = jsonify (PDict [("access_token",
                        PStr (create_access_token ext (fresh_id User.id (users st))))])
         200.
Proof.
  intros Hjson Hn He Hp Ht Hty Hnew Hcheck Hjson2 He2 Hp2.
  unfold serve at 1 3. cbn [view].
  rewrite (register_new_user ext st q d n e p t ty) by assumption.
  split; [reflexivity |].
  cbn [fst]. unfold serve, view, login. rewrite Hjson2. cbn. rewrite He2. cbn.
  rewrite find_app_new.
  - rewrite Hp2. cbn. now rewrite Hcheck.
  - intros u Hu. apply String.eqb_neq. now apply Hnew.
  - apply String.eqb_refl.
Qed.

End Login.

Lemma login_contract_witness :
  serve toy_ext POST_login school
    (anonymous (PDict [("email", PStr "teacher2@test.com");
                       ("password", PStr "wrongpassword")]))
  = (school, jsonify (message "Invalid credentials") 401).
Proof.
  destruct (login_contract toy_ext school
              (anonymous (PDict [("email", PStr "teacher2@test.com");
                                 ("password", PStr "wrongpassword")]))
              _ "teacher2@test.com" "wrongpassword" eq_refl eq_refl eq_refl)
    as (Hstore & _ & Hrefused).
  rewrite (surjective_pairing (serve _ _ _ _)), Hstore, Hrefused; [reflexivity |].
  right. eexists. split; reflexivity.
Defined.

Lemma register_then_login_witness :
  snd (serve toy_ext POST_login
         (fst (serve toy_ext POST_register school (anonymous new_student)))
         (anonymous (PDict [("email", PStr "student2@test.com");
                            ("password", PStr "securepassword")])))
  = jsonify (PDict [("access_token", PStr "token-n")]) 200.
Proof.
  refine (proj2 (register_then_login toy_ext school (anonymous new_student)
                   (anonymous (PDict [("email", PStr "student2@test.com");
                                      ("password", PStr "securepassword")]))
                   _ _ "Student 2" "student2@test.com" "securepassword"
                   (PStr "student") (Some "student")
                   eq_refl eq_refl eq_refl eq_refl eq_refl eq_refl _
                   eq_refl eq_refl eq_refl eq_refl)).
  simpl. intros u [<- | [<- | [<- | []]]]; discriminate.
Defined.



Section CourseLifecycle.

Variable ext : externals.

(** X3.  Create, then read.  POST /courses with a title stores a course
    owned by the token's identity under a key no other course has, and
    answers 201 with that key; GET /courses/<key> then returns the title and
    description that were sent, and the course is in its owner's list. *)
Theorem create_then_read (st : state) (q : request) (who : Z)
    (d : list (string * pyval)) (title : string) (desc : option string) :
  identity q = Some who ->
  json q = PDict d ->
  lookup "title" d = Some (PStr title) ->
  as_opt_string (field_or_none d "description") = Ok desc ->
  let course := Course.mk (fresh_id Course.id (courses st)) title desc who in
  let st' := set_courses st (courses st ++ [course]) in
  serve ext POST_courses st q
  = (st', jsonify (PDict [("id", PInt (Course.id course)); ("title", PStr title)]) 201)
  /\ (forall other, In other (courses st) -> Course.id other <> Course.id course)
  /\ (forall q', serve ext (GET_course (Course.id course)) st' q'
                 = (st', jsonify (course_json course) 200))
  /\ (forall q', identity q' = Some who ->
        exists listed,
          serve ext GET_courses st' q' = (st', jsonify (PList listed) 200)
          /\ In (course_json course) listed).
Proof.
  intros Hid Hjson Htitle Hdesc course st'.
  split; [| split; [| split]].
  - unfold serve, view, create_course, jwt_required.
    rewrite Hid, Hjson. cbn [getitem get]. rewrite Htitle.
    unfold field_or_none in Hdesc.
    destruct (lookup "description" d); cbn [bind as_string]; rewrite Hdesc; reflexivity.
  - intros other Hin. pose proof (fresh_id_above Course.id _ _ Hin) as Hlt.
    unfold course. cbn [Course.id]. lia.
  - intros q'. unfold serve, view, get_course. cbn [courses st' set_courses].
    now rewrite (find_fresh_id Course.id (courses st) course).
  - intros q' Hid'. eexists. split.
    + unfold serve, view, list_courses, jwt_required. now rewrite Hid'.
    + apply in_map. apply filter_In. split.
      * cbn. apply in_or_app. right. now left.
      * apply Z.eqb_refl.
Qed.

(** X4.  PUT /courses/<c> by the owner, with a JSON object as body, changes
    the title and the description the body gives and keeps the ones it
    leaves out; the id and the owner of the course stay, the answer is 200
    with the course as it now is, and the requester still owns it. *)
Theorem update_keeps_omitted_fields (st : state) (q : request) (c who : Z)
    (course : Course.t) (d : list (string * pyval)) (title : string)
    (desc : option string) :
  identity q = Some who ->
  owned_course st c who = Some course ->
  json q = PDict d ->
  as_string (field_or d "title" (PStr (Course.title course))) = Ok title ->
  as_opt_string (field_or d "description" (of_opt_string (Course.description course)))
  = Ok desc ->
  let course' := Course.mk (Course.id course) title desc (Course.teacher_id course) in
  exists st',
    serve ext (PUT_course c) st q = (st', jsonify (course_json course') 200)
    /\ owned_course st' c who = Some course'
    /\ (lookup "title" d = None -> title = Course.title course)
    /\ (lookup "description" d = None -> desc = Course.description course)
    /\ List.length (courses st') = List.length (courses st).
Proof.
  intros Hid Hown Hjson Htitle Hdesc course'.
  eexists. split; [| split; [| split; [| split]]].
  - unfold serve, view, update_course, jwt_required.
    rewrite Hid, Hown, Hjson. unfold get, field_or in *.
    destruct (lookup "title" d); destruct (lookup "description" d);
      cbn [bind]; rewrite Htitle; cbn [bind]; rewrite Hdesc; reflexivity.
  - unfold owned_course. cbn [courses set_courses].
    apply (find_update_first (owned_by c who) (fun _ => course') (courses st) course);
      [exact Hown |].
    apply find_some in Hown. exact (proj2 Hown).
  - intros Hnone. unfold field_or in Htitle. rewrite Hnone in Htitle.
    cbn in Htitle. congruence.
  - intros Hnone. unfold field_or in Hdesc. rewrite Hnone in Hdesc.
    destruct (Course.description course); cbn in Hdesc; congruence.
  - cbn [courses set_courses]. clear.
    induction (courses st) as [| x l IH]; cbn; [reflexivity |].
    destruct (owned_by c who x); cbn; [reflexivity | now rewrite IH].
Qed.


End CourseLifecycle.

Lemma create_then_read_witness :
  serve toy_ext (GET_course 3)
    (fst (serve toy_ext POST_courses school
            (as_user 2 (PDict [("title", PStr "Biology 101")]))))
    (anonymous PNone)
  = (fst (serve toy_ext POST_courses school
            (as_user 2 (PDict [("title", PStr "Biology 101")]))),
     jsonify (PDict [("id", PInt 3); ("title", PStr "Biology 101");
                     ("description", PNone)]) 200).
Proof.
  destruct (create_then_read toy_ext school
              (as_user 2 (PDict [("title", PStr "Biology 101")])) 2 _
              "Biology 101" None eq_refl eq_refl eq_refl eq_refl)
    as (_ & _ & Hread & _).
  exact (Hread (anonymous PNone)).
Defined.

Lemma update_keeps_omitted_fields_witness :
  exists st',
    serve toy_ext (PUT_course 1) school
      (as_user 1 (PDict [("title", PStr "Advanced Math")]))
    = (st', jsonify (PDict [("id", PInt 1); ("title", PStr "Advanced Math");
                            ("description", PStr "Basic Math")]) 200).
Proof.
  destruct (update_keeps_omitted_fields toy_ext school
              (as_user 1 (PDict [("title", PStr "Advanced Math")])) 1 1
              (Course.mk 1 "Math 101" (Some "Basic Math") 1) _
              "Advanced Math" (Some "Basic Math")
              eq_refl eq_refl eq_refl eq_refl eq_refl)
    as (st' & Hserve & _).
  exists st'. exact Hserve.
Defined.





Lemma filter_app_one {A : Type} (p : A -> bool) (l : list A) (x : A) :
  p x = true -> filter p (l ++ [x]) = filter p l ++ [x].
Proof.
  intros Hp. rewrite filter_app. cbn. now rewrite Hp.
Qed.

Section Enrollments.

Variable ext : externals.


(** X7.  Enroll, then remove.  For a student with no enrollment in [c],
    enrolling and then having the owner of [c] remove the student gives back
    the enrollments table as it was before. *)
Theorem enroll_then_remove (st : state) (q q' : request) (c u teacher : Z)
    (course : Course.t) :
  identity q = Some u ->
  identity q' = Some teacher ->
  owned_course st c teacher = Some course ->
  (forall e, In e (enrollments st) -> enrollment_of c u e = false) ->
  let enrolled := fst (serve ext (POST_enroll c) st q) in
  snd (serve ext (DELETE_student c u) enrolled q')
  = jsonify (message "Student removed successfully") 200
  /\ enrollments (fst (serve ext (DELETE_student c u) enrolled q')) = enrollments st.
Proof.
  intros Hid Hid' Hown Hnot enrolled.
  assert (Hnew : enrollment_of c u
                   (Enrollment.mk (fresh_id Enrollment.id (enrollments st)) c u (now q))
                 = true).
  { unfold enrollment_of. cbn. now rewrite !Z.eqb_refl. }
  unfold enrolled, serve, view, enroll_student, remove_student_from_course, jwt_required.
  rewrite Hid. cbn [fst]. rewrite Hid'.
  unfold owned_course in *. cbn [courses enrollments set_enrollments].
  rewrite Hown, (find_app_new _ _ _ Hnot Hnew).
  split; [reflexivity |]. cbn [fst enrollments set_enrollments].
  now apply remove_first_app_new.
Qed.

(** X8.  Enrolling twice is listed twice.  Two POST /courses/<c>/enroll
    requests with the token of [u] add two rows, and the list the owner gets
    from GET /courses/<c>/students ends with two entries for [u]. *)
Theorem double_enrollment_listed_twice (st : state) (q1 q2 q' : request)
    (c u teacher : Z) (course : Course.t) :
  identity q1 = Some u ->
  identity q2 = Some u ->
  identity q' = Some teacher ->
  owned_course st c teacher = Some course ->
  let once := fst (serve ext (POST_enroll c) st q1) in
  let twice := fst (serve ext (POST_enroll c) once q2) in
  exists before,
    snd (serve ext (GET_students c) st q') = jsonify (PList before) 200
    /\ snd (serve ext (GET_students c) twice q')
       = jsonify (PList (before ++ [student_entry u; student_entry u])) 200.
Proof.
  intros Hid1 Hid2 Hid' Hown once twice.
  eexists. split.
  - unfold serve, view, list_course_students, jwt_required.
    rewrite Hid', Hown. reflexivity.
  - unfold twice, once, serve, view, enroll_student, list_course_students, jwt_required.
    rewrite Hid1. cbn [fst]. rewrite Hid2. cbn [fst]. rewrite Hid'.
    unfold owned_course in *. cbn [courses enrollments set_enrollments].
    rewrite Hown. cbn [snd].
    rewrite !filter_app_one by (cbn; apply Z.eqb_refl).
    rewrite !map_app, <- app_assoc. reflexivity.
Qed.

End Enrollments.


Lemma enroll_then_remove_witness :
  enrollments
    (fst (serve toy_ext (DELETE_student 1 3)
            (fst (serve toy_ext (POST_enroll 1) school (as_user 3 PNone)))
            (as_user 1 PNone)))
  = enrollments school.
Proof.
  refine (proj2 (enroll_then_remove toy_ext school (as_user 3 PNone) (as_user 1 PNone)
                   1 3 1 (Course.mk 1 "Math 101" (Some "Basic Math") 1)
                   eq_refl eq_refl eq_refl _)).
  intros e [].
Defined.

Lemma double_enrollment_listed_twice_witness :
  exists before,
    snd (serve toy_ext (GET_students 1) school (as_user 1 PNone))
    = jsonify (PList before) 200
    /\ snd (serve toy_ext (GET_students 1)
              (fst (serve toy_ext (POST_enroll 1)
                      (fst (serve toy_ext (POST_enroll 1) school (as_user 3 PNone)))
                      (as_user 3 PNone)))
              (as_user 1 PNone))
       = jsonify (PList (before ++ [student_entry 3; student_entry 3])) 200.
Proof.
  exact (double_enrollment_listed_twice toy_ext school (as_user 3 PNone)
           (as_user 3 PNone) (as_user 1 PNone) 1 3 1
           (Course.mk 1 "Math 101" (Some "Basic Math") 1)
           eq_refl eq_refl eq_refl eq_refl).
Defined.

Section AssignmentReads.

Variable ext : externals.

(** X9.  Add, then get.  An assignment added to course [c], a course id
    the Integer column holds, gets a key no other assignment has; with any
    token GET /courses/<c>/assignments/<key> returns its name, its due date
    as [isoformat] prints it and its description, and the same key under
    another course id is answered 404 "Assignment not found". *)
Theorem add_then_get_assignment (st : state) (q : request) (c who : Z)
    (d : list (string * pyval)) (n due : string) (t : datetime)
    (desc : option string) :
  identity q = Some who ->
  json q = PDict d ->
  lookup "name" d = Some (PStr n) ->
  lookup "due_date" d = Some (PStr due) ->
  strptime ext due "%Y-%m-%dT%H:%M:%SZ" = Some t ->
  as_opt_string (field_or_none d "description") = Ok desc ->
  fits_integer c = true ->
  let key := fresh_id Assignment.id (assignments st) in
  let st' := fst (serve ext (POST_assignments c) st q) in
  snd (serve ext (POST_assignments c) st q)
  = jsonify (PDict [("id", PInt key); ("name", PStr n)]) 201
  /\ (forall q' anyone, identity q' = Some anyone ->
        serve ext (GET_assignment c key) st' q'
        = (st', jsonify (PDict [("id", PInt key); ("name", PStr n);
                                ("due_date", PStr (isoformat ext t));
                                ("description", of_opt_string desc)]) 200))
  /\ (forall c2 q' anyone, c2 <> c -> fits_integer c2 = true ->
        identity q' = Some anyone ->
        serve ext (GET_assignment c2 key) st' q'
        = (st', jsonify (message "Assignment not found") 404)).
Proof.
  intros Hid Hjson Hname Hdue Hparse Hdesc Hfits key st'.
  assert (Hadd : serve ext (POST_assignments c) st q
                 = (set_assignments st
                      (assignments st ++ [Assignment.mk key n t (Some c) desc]),
                    jsonify (PDict [("id", PInt key); ("name", PStr n)]) 201)).
  { unfold serve, view.
    now rewrite (add_assignment_ok ext st q c who d n due t desc). }
  unfold st'. rewrite Hadd. cbn [fst snd]. split; [reflexivity |]. split.
  - intros q' anyone Hid'. unfold serve, view, get_assignment, jwt_required.
    rewrite Hid'. cbn [assignments set_assignments].
    rewrite find_app_new.
    + reflexivity.
    + intros y Hy. pose proof (fresh_id_above Assignment.id _ _ Hy) as Hlt.
      fold key in Hlt. apply andb_false_intro1. apply Z.eqb_neq. lia.
    + unfold in_course. cbn [Assignment.id Assignment.course_id].
      now rewrite !Z.eqb_refl.
  - intros c2 q' anyone Hc2 _ Hid'. unfold serve, view, get_assignment, jwt_required.
    rewrite Hid'. cbn [assignments set_assignments].
    rewrite find_none_of; [reflexivity |].
    intros y Hy. apply in_app_or in Hy. destruct Hy as [Hy | [<- | []]].
    + pose proof (fresh_id_above Assignment.id _ _ Hy) as Hlt.
      fold key in Hlt. apply andb_false_intro1. apply Z.eqb_neq. lia.
    + unfold in_course. cbn [Assignment.id Assignment.course_id].
      apply andb_false_intro2. apply Z.eqb_neq. congruence.
Qed.

End AssignmentReads.

Lemma add_then_get_assignment_witness :
  serve toy_ext (GET_assignment 1 2)
    (fst (serve toy_ext (POST_assignments 1) school
            (as_user 1 (PDict [("name", PStr "Assignment 2");
                               ("due_date", PStr "2024-05-31T23:59:59Z")]))))
    (as_user 3 PNone)
  = (fst (serve toy_ext (POST_assignments 1) school
            (as_user 1 (PDict [("name", PStr "Assignment 2");
                               ("due_date", PStr "2024-05-31T23:59:59Z")]))),
     jsonify (PDict [("id", PInt 2); ("name", PStr "Assignment 2");
                     ("due_date", PStr "2024-05-31T23:59:59");
                     ("description", PNone)]) 200).
Proof.
  destruct (add_then_get_assignment toy_ext school
              (as_user 1 (PDict [("name", PStr "Assignment 2");
                                 ("due_date", PStr "2024-05-31T23:59:59Z")]))
              1 1 _ "Assignment 2" "2024-05-31T23:59:59Z" 1717199999 None
              eq_refl eq_refl eq_refl eq_refl eq_refl eq_refl eq_refl)
    as (_ & Hget & _).
  exact (Hget (as_user 3 PNone) 3 eq_refl).
Defined.

(** ** What no request does *)

Section Frames.

Variable ext : externals.

(** X10.  A request without a token is answered 401 by every route behind
    [@jwt_required()], and changes the store on no route but /register. *)
Theorem no_token_no_change (r : route) (st : state) (q : request) :
  identity q = None ->
  (protected r = true ->
   serve ext r st q
   = (st, jsonify (PDict [("msg", PStr "Missing Authorization Header")]) 401))
  /\ (r <> POST_register -> fst (serve ext r st q) = st).
Proof.
  intros Hid. split.
  - destruct r; cbn [protected]; intros Hp; try discriminate Hp;
      run_views; rewrite Hid; reflexivity.
  - destruct r; intros Hr; try (now elim Hr);
      run_views; try rewrite Hid; repeat case_scrutinee; reflexivity.
Qed.

(** X11.  A request that is not answered 200 or 201 leaves the store as it
    was, and so does every request to a route that only reads, whatever the
    answer. *)
Theorem errors_leave_store (r : route) (st : state) (q : request) :
  (status (snd (serve ext r st q)) <> 200 ->
   status (snd (serve ext r st q)) <> 201 ->
   fst (serve ext r st q) = st)
  /\ (read_only r = true -> fst (serve ext r st q) = st).
Proof.
  split.
  - destruct r; run_views; repeat case_scrutinee; cbn [fst snd status jsonify];
      intros H200 H201; try reflexivity; try (now elim H200); now elim H201.
  - destruct r; cbn [read_only]; intros Hread; try discriminate Hread;
      run_views; repeat case_scrutinee; reflexivity.
Qed.

(** X12.  Each route writes its own tables only: /register the users; POST
    and PUT on courses the courses; DELETE of a course the courses and the
    assignments; POST of an assignment the assignments; enrolling and
    removing a student the enrollments; marking the submissions; an upload
    the files.  In particular deleting a course leaves its enrollments and
    submissions in place, and logging in or reading changes nothing. *)
Theorem routes_write_their_tables (r : route) (st : state) (q : request) (t : table) :
  ~ In t (writes r) -> same_table t st (fst (serve ext r st q)).
Proof.
  destruct r; destruct t; cbn [writes In]; intros Hout;
    try (exfalso; apply Hout; now auto);
    cbn [same_table]; run_views; repeat case_scrutinee; reflexivity.
Qed.

(** X13.  The routes other than /register, /login and /users never look
    at the users table: with any other users table they give the same
    answer and make the same change.  The type of the user a token names
    is therefore never checked. *)
Theorem users_table_is_not_consulted (r : route) (st : state) (q : request)
    (us : list User.t) :
  reads_users r = false ->
  serve ext r (set_users st us) q
  = (set_users (fst (serve ext r st q)) us, snd (serve ext r st q)).
Proof.
  destruct r; cbn [reads_users]; intros Hr; try discriminate Hr;
    run_views; repeat case_scrutinee; reflexivity.
Qed.

End Frames.

Lemma no_token_no_change_witness :
  serve toy_ext (DELETE_course 1) school (anonymous PNone)
  = (school, jsonify (PDict [("msg", PStr "Missing Authorization Header")]) 401).
Proof.
  now apply (proj1 (no_token_no_change toy_ext (DELETE_course 1) school
                      (anonymous PNone) eq_refl)).
Defined.

Lemma errors_leave_store_witness :
  status (snd (serve toy_ext (PUT_course 1) school
                 (as_user 1 (PDict [("title", PNone)])))) = 500
  /\ fst (serve toy_ext (PUT_course 1) school (as_user 1 (PDict [("title", PNone)])))
     = school.
Proof.
  split; [reflexivity |].
  apply (proj1 (errors_leave_store toy_ext (PUT_course 1) school
                  (as_user 1 (PDict [("title", PNone)])))); cbn; discriminate.
Defined.

Lemma routes_write_their_tables_witness :
  enrollments (fst (serve toy_ext (DELETE_course 2) school (as_user 2 PNone)))
  = enrollments school
  /\ submissions (fst (serve toy_ext (DELETE_course 2) school (as_user 2 PNone)))
     = submissions school.
Proof.
  split.
  - apply (routes_write_their_tables toy_ext (DELETE_course 2) school
             (as_user 2 PNone) Enrollments).
    cbn. intros [H | [H | []]]; discriminate H.
  - apply (routes_write_their_tables toy_ext (DELETE_course 2) school
             (as_user 2 PNone) Submissions).
    cbn. intros [H | [H | []]]; discriminate H.
Defined.

Lemma users_table_is_not_consulted_witness :
  serve toy_ext POST_courses (set_users school [])
    (as_user 3 (PDict [("title", PStr "A student's course")]))
  = (set_users (fst (serve toy_ext POST_courses school
                       (as_user 3 (PDict [("title", PStr "A student's course")])))) [],
     snd (serve toy_ext POST_courses school
            (as_user 3 (PDict [("title", PStr "A student's course")])))).
Proof.
  now apply (users_table_is_not_consulted toy_ext POST_courses school).
Defined.

Lemma map_marked_update_first (p : AssignmentSubmission.t -> bool) (m : option Z)
    (f : option string) (l : list AssignmentSubmission.t) :
  map (marked None None) (update_first p (marked m f) l) = map (marked None None) l.
Proof.
  induction l as [| x l IH]; cbn [update_first map]; [reflexivity |].
  destruct (p x); cbn [map]; [reflexivity | now rewrite IH].
Qed.

Lemma fresh_id_map {A : Type} (key : A -> Z) (f : A -> A) (l : list A) :
  (forall x, key (f x) = key x) -> fresh_id key (map f l) = fresh_id key l.
Proof.
  intros Hkey. unfold fresh_id. f_equal.
  induction l as [| x l IH]; cbn [map fold_right]; [reflexivity |].
  now rewrite Hkey, IH.
Qed.

Lemma read_write_other_file (path path' content : string) (fs : list (string * string)) :
  path' <> path -> read_file path' (write_file path content fs) = read_file path' fs.
Proof.
  intros Hne. apply String.eqb_neq in Hne.
  induction fs as [| [p c] fs IH]; cbn [write_file read_file].
  - now rewrite String.eqb_sym, Hne.
  - destruct (p =? path)%string eqn:E; cbn [read_file].
    + apply String.eqb_eq in E. subst p. now rewrite String.eqb_sym, Hne.
    + now rewrite IH.
Qed.

Section Secrets.

Variable ext : externals.

(** X14.  Marking touches marks and feedback only: whatever a PUT on the
    mark route is answered, the store afterwards differs from the store
    before in nothing but the marks and feedback of submissions; no
    submission is added or deleted, and no id, student, assignment or
    submission date changes. *)
Theorem marking_changes_marks_only (st : state) (q : request) (c a s : Z) :
  forget_marks (fst (serve ext (PUT_mark c a s) st q)) = forget_marks st.
Proof.
  run_views. repeat case_scrutinee; try reflexivity.
  cbn [fst]. unfold forget_marks. cbn [set_submissions users courses assignments
    enrollments submissions files].
  now rewrite map_marked_update_first.
Qed.

(** X15.  No route but /login depends on a stored password hash: the
    answer to any other request is the same on the store with every hash
    blanked.  In particular GET /users and the answer of /register never
    carry a hash. *)
Theorem hashes_are_not_returned (r : route) (st : state) (q : request) :
  r <> POST_login ->
  snd (serve ext r st q) = snd (serve ext r (forget_hashes st) q).
Proof.
  assert (Hfind : forall e,
            find (fun u => (User.email u =? e)%string) (map without_hash (users st))
            = option_map without_hash
                (find (fun u => (User.email u =? e)%string) (users st))).
  { intros e. now apply find_map_same. }
  destruct r; intros Hr; try (now elim Hr); run_views; cbn [forget_hashes set_users
    users courses assignments enrollments submissions files].
  1: { rewrite (fresh_id_map User.id without_hash) by reflexivity.
       repeat case_scrutinee; try reflexivity;
         rewrite Hfind in *; unfold option_map in *;
         repeat match goal with
                | H : context [find ?p ?l] |- _ => destruct (find p l)
                end; congruence. }
  1: { rewrite map_map. reflexivity. }
  all: repeat case_scrutinee; reflexivity.
Qed.

(** X16.  An upload writes one path: after POST /courses/<c>/materials,
    whatever the answer, every path other than the upload folder joined
    with the sanitized name of the file in the request reads as before. *)
Theorem upload_keeps_other_files (st : state) (q : request) (c : Z) (path' : string) :
  (forall field filename content,
     file_part q = Some (field, (filename, content)) ->
     path' <> path_join UPLOAD_FOLDER (secure_filename ext filename)) ->
  read_file path' (files (fst (serve ext (POST_materials c) st q)))
  = read_file path' (files st).
Proof.
  intros Hother. unfold file_part in Hother. run_views.
  repeat case_scrutinee; try reflexivity.
  cbn [fst files set_files]. apply read_write_other_file.
  now eapply Hother.
Qed.

End Secrets.

Lemma hashes_are_not_returned_witness :
  snd (serve toy_ext GET_users school (anonymous PNone))
  = snd (serve toy_ext GET_users (forget_hashes school) (anonymous PNone)).
Proof.
  apply (hashes_are_not_returned toy_ext GET_users school (anonymous PNone)).
  discriminate.
Defined.

Lemma upload_keeps_other_files_witness :
  read_file "/path/to/upload/folder/notes.txt"
    (files (fst (serve toy_ext (POST_materials 2)
                   (set_files school [("/path/to/upload/folder/notes.txt", "algebra")])
                   (with_file 2 "file" "lab.txt" "chemistry"))))
  = Some "algebra".
Proof.
  rewrite (upload_keeps_other_files toy_ext
             (set_files school [("/path/to/upload/folder/notes.txt", "algebra")])
             (with_file 2 "file" "lab.txt" "chemistry") 2
             "/path/to/upload/folder/notes.txt").
  - reflexivity.
  - intros field filename content Hpart. injection Hpart as <- <- <-. discriminate.
Defined.

(** ** Invariants of the store *)

Lemma NoDup_snoc {A : Type} (l : list A) (x : A) :
  NoDup l -> ~ In x l -> NoDup (l ++ [x]).
Proof.
  induction l as [| y l IH]; cbn [app]; intros Hnd Hx.
  - constructor; [tauto | constructor].
  - apply NoDup_cons_iff in Hnd. destruct Hnd as [Hy Hnd].
    constructor.
    + intros Hin. apply in_app_or in Hin. destruct Hin as [Hin | [-> | []]].
      * contradiction.
      * apply Hx. now left.
    + apply IH; [exact Hnd |]. intros Hin. apply Hx. now right.
Qed.

Lemma fresh_key_unique {A : Type} (key : A -> Z) (l : list A) (x : A) :
  key x = fresh_id key l -> NoDup (map key l) -> NoDup (map key (l ++ [x])).
Proof.
  intros Hkey Hnd. rewrite map_app. cbn [map]. apply NoDup_snoc; [exact Hnd |].
  intros Hin. apply in_map_iff in Hin. destruct Hin as (y & Hy & Hin).
  pose proof (fresh_id_above key l y Hin). lia.
Qed.

Lemma update_first_keys {A : Type} (key : A -> Z) (p : A -> bool) (f : A -> A)
    (l : list A) :
  (forall x, key (f x) = key x) -> map key (update_first p f l) = map key l.
Proof.
  intros Hkey. induction l as [| x l IH]; cbn [update_first map]; [reflexivity |].
  destruct (p x); cbn [map]; [now rewrite Hkey | now rewrite IH].
Qed.

Lemma update_found_keys {A : Type} (key : A -> Z) (p : A -> bool) (f : A -> A)
    (l : list A) (x : A) :
  find p l = Some x -> key (f x) = key x -> map key (update_first p f l) = map key l.
Proof.
  intros Hfind Hkey. induction l as [| y l IH]; cbn [find update_first map] in *.
  - discriminate.
  - destruct (p y); cbn [map].
    + injection Hfind as ->. now rewrite Hkey.
    + now rewrite IH.
Qed.

Lemma remove_first_keys {A : Type} (key : A -> Z) (p : A -> bool) (l : list A) :
  NoDup (map key l) -> NoDup (map key (remove_first p l)).
Proof.
  induction l as [| x l IH]; cbn [remove_first map]; intros Hnd; [exact Hnd |].
  apply NoDup_cons_iff in Hnd. destruct Hnd as [Hx Hnd].
  destruct (p x); [exact Hnd |]. cbn [map]. constructor; [| now apply IH].
  intros Hin. apply Hx. apply in_map_iff in Hin. destruct Hin as (y & Hy & Hin).
  rewrite <- Hy. apply in_map. clear - Hin.
  induction l as [| z l IH]; cbn [remove_first] in Hin; [contradiction |].
  destruct (p z); [now right |].
  destruct Hin as [-> | Hin]; [now left | right; now apply IH].
Qed.

Lemma orphan_keys (c : Z) (l : list Assignment.t) :
  map Assignment.id (map (orphan c) l) = map Assignment.id l.
Proof.
  rewrite map_map. apply map_ext. intros a. unfold orphan.
  now destruct (in_course c a).
Qed.

Lemma find_email_none (e : string) (us : list User.t) :
  find (fun u => (User.email u =? e)%string) us = None -> ~ In e (map User.email us).
Proof.
  intros Hnone Hin. apply in_map_iff in Hin. destruct Hin as (u & Hu & Hin).
  apply (find_none _ _ Hnone) in Hin. cbn in Hin. rewrite Hu, String.eqb_refl in Hin.
  discriminate.
Qed.

Section Invariants.

Variable ext : externals.

(** X17.  No request makes two users share an email: [register] stores a
    user only after finding no user of that email, and no other route
    writes the users table. *)
Theorem emails_stay_unique (r : route) (st : state) (q : request) :
  emails_unique st -> emails_unique (fst (serve ext r st q)).
Proof.
  unfold emails_unique. intros Hnd.
  destruct r; run_views; repeat case_scrutinee; cbn [fst users set_users];
    try exact Hnd;
    try match goal with
        | H : negb false = false |- _ => discriminate H
        | H : as_string PNone = Ok _ |- _ => discriminate H
        end.
  match goal with
  | H : as_string (PStr _) = Ok _ |- _ => injection H as <-
  end.
  rewrite map_app. cbn [map User.email]. apply NoDup_snoc; [exact Hnd |].
  now apply find_email_none.
Qed.

(** X18.  Primary keys stay unique: in a store where no two rows of a
    table share an id, no request produces two such rows. *)
Theorem keys_stay_unique (r : route) (st : state) (q : request) :
  keys_unique st -> keys_unique (fst (serve ext r st q)).
Proof.
  unfold keys_unique. intros (Hu & Hc & Ha & He & Hs).
  destruct r; run_views; repeat case_scrutinee;
    cbn [fst users courses assignments enrollments submissions
         set_users set_courses set_assignments set_enrollments set_submissions
         set_files];
    repeat split; try assumption;
    try (now apply fresh_key_unique);
    try (rewrite update_first_keys by reflexivity; assumption);
    try (now apply remove_first_keys);
    try (rewrite orphan_keys; assumption).
  match goal with
  | H : find _ (courses st) = Some ?row |- _ =>
      now rewrite (update_found_keys Course.id _ _ _ row H)
  end.
Qed.

End Invariants.

Lemma emails_stay_unique_witness :
  emails_unique (fst (serve toy_ext POST_register school (anonymous new_student))).
Proof.
  apply (emails_stay_unique toy_ext POST_register school (anonymous new_student)).
  unfold emails_unique. cbn. repeat constructor; cbn; intuition discriminate.
Defined.

Lemma keys_stay_unique_witness :
  keys_unique (fst (serve toy_ext (POST_enroll 2) school (as_user 3 PNone))).
Proof.
  apply (keys_stay_unique toy_ext (POST_enroll 2) school (as_user 3 PNone)).
  unfold keys_unique. cbn. repeat split; repeat constructor; cbn; intuition discriminate.
Defined.

(** ** Bodies that are not JSON objects *)

Lemma all_in_list (keys : list string) (l : list pyval) :
  (forall k, In k keys -> In (PStr k) l) -> all_in keys (PList l) = Ok true.
Proof.
  induction keys as [| k keys IH]; intros Hall; cbn [all_in contains bind].
  - reflexivity.
  - assert (Hk : existsb (is_str k) l = true).
    { apply existsb_exists. exists (PStr k). split.
      - apply Hall. now left.
      - cbn. apply String.eqb_refl. }
    rewrite Hk. apply IH. intros k' Hk'. apply Hall. now right.
Qed.

Section OddBodies.

Variable ext : externals.

(** X19.  What [register] makes of a body that is not a JSON object.  A
    falsy body (null, 0, an empty string, list or object) is refused with
    400.  A JSON list that holds the four field names passes the check
    [k in data] and then fails at [data['email']]: the answer is 500, as it
    is for a number other than 0.  Nothing is stored in any of these
    cases. *)
Theorem register_odd_bodies (st : state) (q : request) :
  (truthy (json q) = false ->
   serve ext POST_register st q
   = (st, mkResponse 400 (Html "Missing data for registration")))
  /\ (forall l, json q = PList l ->
        (forall k, In k registration_keys -> In (PStr k) l) ->
        serve ext POST_register st q = (st, jsonify (message "Server error") 500))
  /\ (forall n, json q = PInt n -> n <> 0 ->
        serve ext POST_register st q = (st, jsonify (message "Server error") 500)).
Proof.
  split; [| split].
  - intros Hfalsy. unfold serve, view, register. now rewrite Hfalsy.
  - intros l Hjson Hall. unfold serve, view, register. rewrite Hjson.
    assert (Hl : truthy (PList l) = true).
    { destruct l; [| reflexivity]. now elim (Hall "name"%string (or_introl eq_refl)). }
    rewrite Hl, (all_in_list ["name"; "email"; "password"; "type"]%string l Hall).
    reflexivity.
  - intros n Hjson Hn. unfold serve, view, register. rewrite Hjson.
    cbn [truthy]. apply Z.eqb_neq in Hn. now rewrite Hn.
Qed.

(** X20.  A body that is not a JSON object ends in 500 wherever a handler
    reads a field of it: always for POST /courses, POST of an assignment
    and POST /login, and for PUT on a course or on a mark once the course
    (and the submission) is found.  The store is left as it was. *)
Theorem non_object_body_is_server_error (st : state) (q : request) :
  is_dict (json q) = false ->
  let failed := (st, jsonify (message "Server error") 500) in
  serve ext POST_login st q = failed
  /\ forall who, identity q = Some who ->
       serve ext POST_courses st q = failed
       /\ (forall c, serve ext (POST_assignments c) st q = failed)
       /\ (forall c course, owned_course st c who = Some course ->
             serve ext (PUT_course c) st q = failed)
       /\ (forall c a s course sub,
             owned_course st c who = Some course ->
             find (submission_of a s) (submissions st) = Some sub ->
             serve ext (PUT_mark c a s) st q = failed).
Proof.
  intros Hdict failed. unfold failed. split.
  - unfold serve, view, login. destruct (json q); try discriminate Hdict; reflexivity.
  - intros who Hid. split; [| split; [| split]].
    + unfold serve, view, create_course, jwt_required. rewrite Hid.
      destruct (json q); try discriminate Hdict; reflexivity.
    + intros c. unfold serve, view, add_assignment_to_course, jwt_required.
      rewrite Hid. destruct (json q); try discriminate Hdict; reflexivity.
    + intros c course Hown. unfold serve, view, update_course, jwt_required.
      rewrite Hid, Hown. destruct (json q); try discriminate Hdict; reflexivity.
    + intros c a s course sub Hown Hsub.
      unfold serve, view, mark_submission, jwt_required.
      rewrite Hid, Hown, Hsub. destruct (json q); try discriminate Hdict; reflexivity.
Qed.

End OddBodies.

Lemma register_odd_bodies_witness :
  serve toy_ext POST_register school
    (anonymous (PList [PStr "name"; PStr "email"; PStr "password"; PStr "type"]))
  = (school, jsonify (message "Server error") 500).
Proof.
  destruct (register_odd_bodies toy_ext school
              (anonymous (PList [PStr "name"; PStr "email"; PStr "password";
                                 PStr "type"])))
    as (_ & Hlist & _).
  apply (Hlist _ eq_refl).
  intros k [<- | [<- | [<- | [<- | []]]]]; cbn; tauto.
Defined.

Lemma non_object_body_is_server_error_witness :
  serve toy_ext (PUT_course 1) school (as_user 1 PNone)
  = (school, jsonify (message "Server error") 500).
Proof.
  destruct (non_object_body_is_server_error toy_ext school (as_user 1 PNone) eq_refl)
    as (_ & Hauth).
  destruct (Hauth 1 eq_refl) as (_ & _ & Hput & _).
  exact (Hput 1 (Course.mk 1 "Math 101" (Some "Basic Math") 1) eq_refl).
Defined.
